(** * ccgen: the card synthesizer of [card_generator.py]

    A shallow embedding of [card_generator.py] and the properties of its
    validator, scheme classifier, Luhn synthesizer, attribute generators and
    batch entry point; then of what [bot.py] and [config.py] compute around
    it: the BIN taken from a message, the check of the quantity, the line
    written for a record, and the bot token.

    Conventions of the embedding.
    - A Python [str] is a list of code points; the code points modelled are
      U+0000..U+00FF, one [ascii] (8 bits) each.  ["178"%char] is U+00B2.
    - A Python [int] is a [Z].
    - A call that may raise returns a [result]; [OutOfFuel] is not a Python
      outcome, it only bounds the recursion of [generate_card_number].
    - The ambient random source and the system clock are the two tapes of a
      [world] that every effectful function threads. *)

From Stdlib Require Import ZArith List Ascii String DecimalString Lia Bool.
Import ListNotations.
Open Scope Z_scope.

(** ** Python values *)

Definition str := list ascii.

Definition lit (s : string) : str := list_ascii_of_string s.

Definition len (s : str) : Z := Z.of_nat (List.length s).

Definition code (c : ascii) : Z := Z.of_N (N_of_ascii c).

Inductive exn := ValueError | IndexError | OverflowError.

Inductive result (A : Type) : Type :=
| Ok (a : A)
| Raise (e : exn)
| OutOfFuel.

Arguments Ok {A} a.
Arguments Raise {A} e.
Arguments OutOfFuel {A}.

Definition bind {A B : Type} (m : result A) (k : A -> result B) : result B :=
  match m with
  | Ok a => k a
  | Raise e => Raise e
  | OutOfFuel => OutOfFuel
  end.

Notation "x <- m ;; k" := (bind m (fun x => k))
  (at level 61, m at next level, right associativity).
Notation "' pat <- m ;; k" := (bind m (fun x => match x with pat => k end))
  (at level 61, pat pattern, m at next level, right associativity).

Fixpoint mapM {A B : Type} (f : A -> result B) (l : list A) : result (list B) :=
  match l with
  | [] => Ok []
  | x :: r => y <- f x ;; ys <- mapM f r ;; Ok (y :: ys)
  end.

Fixpoint foldM {A B : Type} (f : A -> B -> result A) (l : list B) (a : A) : result A :=
  match l with
  | [] => Ok a
  | x :: r => a' <- f a x ;; foldM f r a'
  end.

Definition sum (l : list Z) : Z := fold_left Z.add l 0.

(** [range(n)] *)
Definition range (n : Z) : list Z := map Z.of_nat (seq 0 (Z.to_nat n)).

(** ** The ambient random source and the system clock *)

Record date := mkdate { year : Z; month : Z; day : Z }.

Record world := mkworld { rand_tape : nat -> Z; clock_tape : nat -> date }.

(** [random.randint(a, b)]: the next value of the tape, brought into [a..b]. *)
Definition randint (a b : Z) (w : world) : Z * world :=
  (a + rand_tape w 0%nat mod (b - a + 1),
   mkworld (fun i => rand_tape w (S i)) (clock_tape w)).

(** [datetime.now()]: the next reading of the clock (its date part). *)
Definition datetime_now (w : world) : date * world :=
  (clock_tape w 0%nat, mkworld (rand_tape w) (fun i => clock_tape w (S i))).

(** ** [str] methods and conversions *)

Definition is_ascii_digit (c : ascii) : bool := (48 <=? code c) && (code c <=? 57).

(** The code points below U+0100 whose Unicode Numeric_Type is Decimal or
    Digit: '0'..'9' and the superscripts U+00B2, U+00B3, U+00B9. *)
Definition isdigit_char (c : ascii) : bool :=
  is_ascii_digit c || (code c =? 178) || (code c =? 179) || (code c =? 185).

(** [s.isdigit()]: false on the empty string. *)
Definition isdigit (s : str) : bool :=
  match s with
  | [] => false
  | _ => forallb isdigit_char s
  end.

(** [s.startswith(p)] *)
Fixpoint startswith (p s : str) : bool :=
  match p, s with
  | [], _ => true
  | _ :: _, [] => false
  | a :: p', b :: s' => Ascii.eqb a b && startswith p' s'
  end.

(** [s[:n]] for [0 <= n] *)
Definition slice_to (n : Z) (s : str) : str := firstn (Z.to_nat n) s.

(** [s[0]] *)
Definition index0 (s : str) : result ascii :=
  match s with
  | [] => Raise IndexError
  | c :: _ => Ok c
  end.

(** [s.ljust(width, fill)] *)
Definition ljust (width : Z) (fill : ascii) (s : str) : str :=
  s ++ repeat fill (Z.to_nat (width - len s)).

(** [s.zfill(width)]: the zeros go after a leading sign. *)
Definition zfill (width : Z) (s : str) : str :=
  let pad := repeat "0"%char (Z.to_nat (width - len s)) in
  match s with
  | c :: r => if Ascii.eqb c "+" || Ascii.eqb c "-" then c :: pad ++ r else pad ++ s
  | [] => pad
  end.

(** [str(n)] for an int [n] *)
Definition py_str (n : Z) : str := lit (NilZero.string_of_int (Z.to_int n)).

(** *** [int(s)] for a str [s]

    Code points from U+007F up are first replaced: a space (U+0085, U+00A0)
    by ' ', anything else by '?', there being no decimal digit among them.
    Then: ASCII white space, an optional sign, decimal digits with single
    underscores between them, ASCII white space, end of string.  Anything
    else raises [ValueError].  (The interpreter's limit on the number of
    digits, 4300 by default, is not modelled.) *)

Definition int_normalise (c : ascii) : ascii :=
  if code c <? 127 then c
  else if (code c =? 133) || (code c =? 160) then " "%char else "?"%char.

Definition is_ascii_space (c : ascii) : bool :=
  ((9 <=? code c) && (code c <=? 13)) || (code c =? 32).

Definition digit_value (c : ascii) : option Z :=
  if is_ascii_digit c then Some (code c - 48) else None.

Fixpoint skip_space (s : str) : str :=
  match s with
  | c :: r => if is_ascii_space c then skip_space r else s
  | [] => []
  end.

(** After a digit: more digits, each possibly preceded by one underscore. *)
Fixpoint int_digits (acc : Z) (s : str) : option (Z * str) :=
  match s with
  | c :: r =>
      match digit_value c with
      | Some d => int_digits (10 * acc + d) r
      | None =>
          if Ascii.eqb c "_" then
            match r with
            | c' :: r' =>
                match digit_value c' with
                | Some d => int_digits (10 * acc + d) r'
                | None => None
                end
            | [] => None
            end
          else Some (acc, s)
      end
  | [] => Some (acc, [])
  end.

Definition int_unsigned (s : str) : option Z :=
  match s with
  | c :: r =>
      match digit_value c with
      | Some d =>
          match int_digits d r with
          | Some (n, rest) =>
              match skip_space rest with
              | [] => Some n
              | _ :: _ => None
              end
          | None => None
          end
      | None => None
      end
  | [] => None
  end.

Definition py_int (s : str) : result Z :=
  let body := skip_space (map int_normalise s) in
  let '(negative, digits) :=
    match body with
    | c :: r => if Ascii.eqb c "-" then (true, r)
                else if Ascii.eqb c "+" then (false, r) else (false, body)
    | [] => (false, body)
    end in
  match int_unsigned digits with
  | Some n => Ok (if negative : bool then - n else n)
  | None => Raise ValueError
  end.

(** ** [validate_bin] *)

Definition validate_bin (bin : str) : bool :=
  if negb (isdigit bin) then false
  else existsb (Z.eqb (len bin)) [3; 4; 6].

(** ** [detect_card_type] *)

Definition detect_card_type (bin : str) : result (string * Z) :=
  bin_int <- py_int bin ;;
  let bin_len := len bin in
  if bin_len <? 6 then
    first_digit <- index0 bin ;;
    if Ascii.eqb first_digit "4" then Ok ("visa"%string, 16)
    else if Ascii.eqb first_digit "3" then Ok ("amex"%string, 15)
    else Ok ("unknown"%string, 16)
  else if startswith (lit "4") bin then Ok ("visa"%string, 16)
  else if startswith (lit "34") bin || startswith (lit "37") bin then
    Ok ("amex"%string, 15)
  else if startswith (lit "51") bin || startswith (lit "52") bin
          || startswith (lit "53") bin || startswith (lit "54") bin
          || startswith (lit "55") bin then
    Ok ("mastercard"%string, 16)
  else if (222100 <=? bin_int) && (bin_int <=? 272099) then
    Ok ("mastercard"%string, 16)
  else Ok ("unknown"%string, 16).

(** ** The Luhn checksum

    [calculate_luhn_check_digit] and [luhn_check] each carry a nested
    [luhn_checksum] with its own [digits_of]; the two copies are the same
    text, embedded once. *)

Definition digits_of (n : str) : result (list Z) :=
  mapM (fun d => py_int [d]) n.

(** [l[0::2]]; with [rev] it gives the two slices of the source:
    [digits[-1::-2]] is [every_other (rev digits)] and [digits[-2::-2]] is
    [every_other (tl (rev digits))]. *)
Fixpoint every_other (l : list Z) : list Z :=
  match l with
  | [] => []
  | x :: r => x :: match r with
                   | [] => []
                   | _ :: r' => every_other r'
                   end
  end.

Definition luhn_checksum (card_num : str) : result Z :=
  digits <- digits_of card_num ;;
  let odd_digits := every_other (rev digits) in
  let even_digits := every_other (tl (rev digits)) in
  let checksum := sum odd_digits in
  checksum <- foldM (fun checksum d =>
                       ds <- digits_of (py_str (d * 2)) ;;
                       Ok (checksum + sum ds))
                    even_digits checksum ;;
  Ok (checksum mod 10).

(** The [for check_digit in range(10)] loop; [None] is the loop running out
    without a [return]. *)
Fixpoint check_digit_search (partial_number : str) (candidates : list Z)
  : result (option Z) :=
  match candidates with
  | [] => Ok None
  | check_digit :: rest =>
      let test_number := partial_number ++ py_str check_digit in
      c <- luhn_checksum test_number ;;
      if c =? 0 then Ok (Some check_digit)
      else check_digit_search partial_number rest
  end.

Definition calculate_luhn_check_digit (partial_number : str) : result Z :=
  found <- check_digit_search partial_number (range 10) ;;
  match found with
  | Some check_digit => Ok check_digit
  | None => Ok 0
  end.

Definition luhn_check (card_number : str) : result bool :=
  c <- luhn_checksum card_number ;;
  Ok (c =? 0).

(** ** [generate_card_number] *)

(** [''.join([str(random.randint(0, 9)) for _ in range(n)])] *)
Fixpoint random_part (n : nat) (w : world) : str * world :=
  match n with
  | O => ([], w)
  | S k =>
      let '(d, w1) := randint 0 9 w in
      let '(r, w2) := random_part k w1 in
      (py_str d ++ r, w2)
  end.

(** Lines 105-123: the prefix taken from the BIN, and [digits_before_check]. *)
Definition bin_prefix (bin : str) (card_length : Z) : str * Z :=
  if card_length =? 15 then
    (if 4 <=? len bin then slice_to 4 bin else ljust 4 "0" bin, 14)
  else
    (if 6 <=? len bin then slice_to 6 bin
     else if 4 <=? len bin then slice_to 4 bin
     else if len bin =? 3 then slice_to 3 bin else bin, 15).

(** Lines 105-136: one pass of the synthesis, up to the candidate number. *)
Definition card_number_candidate (bin : str) (card_length : Z) (w : world)
  : result (str * world) :=
  let '(prefix, digits_before_check) := bin_prefix bin card_length in
  let remaining_digits := digits_before_check - len prefix in
  let '(partial_number, w1) :=
    if 0 <? remaining_digits then
      let '(r, w1) := random_part (Z.to_nat remaining_digits) w in
      (prefix ++ r, w1)
    else (slice_to digits_before_check prefix, w) in
  check_digit <- calculate_luhn_check_digit partial_number ;;
  Ok (partial_number ++ py_str check_digit, w1).

(** The recursion of the source is on nothing that decreases: [fuel] bounds
    the number of passes. *)
Fixpoint generate_card_number (fuel : nat) (bin : str) (card_length : Z)
  (w : world) : result (str * world) :=
  match fuel with
  | O => OutOfFuel
  | S fuel' =>
      '(card_number, w1) <- card_number_candidate bin card_length w ;;
      valid <- luhn_check card_number ;;
      if negb valid then generate_card_number fuel' bin card_length w1
      else Ok (card_number, w1)
  end.

(** ** Dates: the proleptic Gregorian calendar of [datetime]

    [datetime.now() + timedelta(days=n)] goes through the ordinal of the
    date; the conversions are the library's [_ymd2ord] and [_ord2ymd]. *)

Definition MAXORDINAL : Z := 3652059.

Definition is_leap (y : Z) : bool :=
  (y mod 4 =? 0) && (negb (y mod 100 =? 0) || (y mod 400 =? 0)).

Definition days_before_year (y : Z) : Z :=
  let y := y - 1 in y * 365 + y / 4 - y / 100 + y / 400.

Definition DAYS_IN_MONTH (m : Z) : Z :=
  nth (Z.to_nat m) [-1; 31; 28; 31; 30; 31; 30; 31; 31; 30; 31; 30; 31] 0.

Definition DAYS_BEFORE_MONTH (m : Z) : Z :=
  nth (Z.to_nat m) [-1; 0; 31; 59; 90; 120; 151; 181; 212; 243; 273; 304; 334] 0.

Definition days_in_month (y m : Z) : Z :=
  if (m =? 2) && is_leap y then 29 else DAYS_IN_MONTH m.

Definition days_before_month (y m : Z) : Z :=
  DAYS_BEFORE_MONTH m + (if (2 <? m) && is_leap y then 1 else 0).

(** [d.toordinal()]: 1 is 0001-01-01. *)
Definition ymd2ord (d : date) : Z :=
  days_before_year (year d) + days_before_month (year d) (month d) + day d.

(** [date.fromordinal(n)] *)
Definition ord2ymd (n : Z) : date :=
  let n := n - 1 in
  let n400 := n / 146097 in
  let n := n mod 146097 in
  let y := n400 * 400 + 1 in
  let n100 := n / 36524 in
  let n := n mod 36524 in
  let n4 := n / 1461 in
  let n := n mod 1461 in
  let n1 := n / 365 in
  let n := n mod 365 in
  let y := y + n100 * 100 + n4 * 4 + n1 in
  if (n1 =? 4) || (n100 =? 4) then mkdate (y - 1) 12 31
  else
    let leapyear := (n1 =? 3) && (negb (n4 =? 24) || (n100 =? 3)) in
    let m := Z.shiftr (n + 50) 5 in
    let preceding := DAYS_BEFORE_MONTH m + (if (2 <? m) && leapyear then 1 else 0) in
    if n <? preceding then
      let m := m - 1 in
      let preceding :=
        preceding - (DAYS_IN_MONTH m + (if (m =? 2) && leapyear then 1 else 0)) in
      mkdate y m (n - preceding + 1)
    else mkdate y m (n - preceding + 1).

(** A date a [datetime] object can hold. *)
Definition valid_date (d : date) : bool :=
  (1 <=? year d) && (year d <=? 9999) && (1 <=? month d) && (month d <=? 12)
  && (1 <=? day d) && (day d <=? days_in_month (year d) (month d)).

(** [d + timedelta(days=n)] *)
Definition add_days (d : date) (n : Z) : result date :=
  let o := ymd2ord d + n in
  if (0 <? o) && (o <=? MAXORDINAL) then Ok (ord2ymd o) else Raise OverflowError.

(** ** [generate_expiry_date], [generate_cvv] *)

Definition generate_expiry_date (w : world) : result ((str * str) * world) :=
  let '(months_ahead, w1) := randint 6 60 w in
  let '(now, w2) := datetime_now w1 in
  expiry_date <- add_days now (months_ahead * 30) ;;
  Ok ((zfill 2 (py_str (month expiry_date)), py_str (year expiry_date)), w2).

Definition generate_cvv (card_number : str) (w : world) : str * world :=
  if len card_number =? 15 then
    let '(n, w1) := randint 1000 9999 w in (py_str n, w1)
  else
    let '(n, w1) := randint 100 999 w in (py_str n, w1).

(** ** [generate_card], [generate_cards] *)

(** The dict with the keys 'number', 'month', 'year', 'cvv'. *)
Record card := mkcard { number : str; card_month : str; card_year : str; cvv : str }.

Definition generate_card (fuel : nat) (bin : str) (w : world)
  : result (card * world) :=
  '(card_type, card_length) <- detect_card_type bin ;;
  '(card_number, w1) <- generate_card_number fuel bin card_length w ;;
  '((month, year), w2) <- generate_expiry_date w1 ;;
  let '(cvv, w3) := generate_cvv card_number w2 in
  Ok (mkcard card_number month year cvv, w3).

(** The [for _ in range(quantity)] loop, [cards] being the list built so far. *)
Fixpoint generate_cards_loop (fuel : nat) (bin : str) (iterations : nat)
  (cards : list card) (w : world) : result (list card * world) :=
  match iterations with
  | O => Ok (cards, w)
  | S k =>
      '(card, w1) <- generate_card fuel bin w ;;
      generate_cards_loop fuel bin k (cards ++ [card]) w1
  end.

Definition generate_cards (fuel : nat) (bin : str) (quantity : Z) (w : world)
  : result (list card * world) :=
  generate_cards_loop fuel bin (Z.to_nat quantity) [] w.

(** ** [bot.py]: [extract_bin]

    The handlers of [bot.py] talk to Telegram and to the file system; what
    is embedded of them is what they compute: the BIN taken from a message,
    the check of the quantity, and the line written for a record. *)

(** [c.isspace()], which is also the class [\s] of [re] on a [str]
    pattern: the ASCII white space, U+001C..U+001F, U+0085 and U+00A0. *)
Definition isspace_char (c : ascii) : bool :=
  ((9 <=? code c) && (code c <=? 13)) || ((28 <=? code c) && (code c <=? 32))
  || (code c =? 133) || (code c =? 160).

(** [s.lstrip()] *)
Fixpoint lstrip (s : str) : str :=
  match s with
  | c :: r => if isspace_char c then lstrip r else s
  | [] => []
  end.

(** [s.strip()] *)
Definition strip (s : str) : str := rev (lstrip (rev (lstrip s))).

(** [re.sub(r'^(bin|BIN):?\s*', '', text, flags=re.IGNORECASE)]: the
    pattern is anchored at the start of the string and cannot match the
    empty string, so at most one match, at position 0, is removed. *)
Definition sub_bin_prefix (text : str) : str :=
  match text with
  | b :: i :: n :: rest =>
      if (Ascii.eqb b "b" || Ascii.eqb b "B")
         && (Ascii.eqb i "i" || Ascii.eqb i "I")
         && (Ascii.eqb n "n" || Ascii.eqb n "N")
      then
        lstrip (match rest with
                | c :: r => if Ascii.eqb c ":" then r else rest
                | [] => rest
                end)
      else text
  | _ => text
  end.

(** The digits at the start of [s], [limit] of them at most ([\d] is the
    class of decimal digits, '0'..'9' below U+0100). *)
Fixpoint leading_digits (limit : nat) (s : str) : str :=
  match limit, s with
  | S k, c :: r => if is_ascii_digit c then c :: leading_digits k r else []
  | _, _ => []
  end.

(** [re.search(r'\d{3,6}', text)]: the leftmost position at which three
    digits follow, with as many as six of the digits there. *)
Fixpoint search_digits (text : str) : option str :=
  match text with
  | [] => None
  | _ :: r =>
      let m := leading_digits 6 text in
      if (3 <=? List.length m)%nat then Some m else search_digits r
  end.

Definition extract_bin (message_text : str) : str :=
  let text := strip message_text in
  let text := sub_bin_prefix text in
  match search_digits text with
  | Some group0 => group0
  | None => []
  end.

(** ** [bot.py]: the quantity check and the file of [handle_quantity] *)

(** [config.MAX_CARDS_PER_REQUEST] *)
Definition MAX_CARDS_PER_REQUEST : Z := 1000.

(** Lines 101-119 and 172-177 of [handle_quantity], up to the first call
    that leaves the process: the way the handler takes on the text of the
    message. *)
Inductive quantity_check :=
| InvalidQuantity          (* [int] raised: the [except ValueError] reply *)
| NotPositive              (* [quantity <= 0] *)
| OverMaximum (quantity : Z)
| QuantityAccepted (quantity : Z).

Definition check_quantity (message_text : str) : quantity_check :=
  let quantity_text := strip message_text in
  match py_int quantity_text with
  | Ok quantity =>
      if quantity <=? 0 then NotPositive
      else if MAX_CARDS_PER_REQUEST <? quantity then OverMaximum quantity
      else QuantityAccepted quantity
  | Raise _ => InvalidQuantity
  | OutOfFuel => InvalidQuantity
  end.

(** Line 146: [f"{card['number']}|{card['month']}|{card['year']}|{card['cvv']}\n"] *)
Definition card_line (c : card) : str :=
  number c ++ "|"%char :: card_month c ++ "|"%char :: card_year c
  ++ "|"%char :: cvv c ++ ["010"%char].

(** Lines 144-147: what is written to the file, line after line. *)
Definition cards_file (cards : list card) : str :=
  List.concat (map card_line cards).

(** ** [config.py]: the bot token *)






(** ** Vocabulary of the statements *)

(** A string of ASCII decimal digits (the empty string included). *)
Definition all_ascii_digits (s : str) : bool := forallb is_ascii_digit s.

(** The digits of a digit string, as numbers. *)
Definition digit_values (s : str) : list Z := map (fun c => code c - 48) s.

(** The number a digit string denotes. *)
Definition decimal_value (s : str) : Z :=
  fold_left (fun acc c => 10 * acc + (code c - 48)) s 0.

(** The Luhn checksum in the words of the specification: positions are
    counted from the rightmost digit, which has position 1; a digit at an
    odd position counts as it is, a digit at an even position is doubled
    and, when the double exceeds 9, reduced by 9. *)
Definition luhn_double (d : Z) : Z := if 9 <? 2 * d then 2 * d - 9 else 2 * d.

Fixpoint luhn_weighted (odd_position : bool) (from_right : list Z) : Z :=
  match from_right with
  | [] => 0
  | d :: r =>
      (if odd_position then d else luhn_double d)
      + luhn_weighted (negb odd_position) r
  end.

Definition luhn_total (digits : list Z) : Z := luhn_weighted true (rev digits).

Definition luhn_valid (s : str) : Prop := luhn_total (digit_values s) mod 10 = 0.

(** The schemes of the specification, each with its total length. *)
Inductive scheme := visa | mastercard | amex | unknown.

Definition scheme_tag (s : scheme) : string :=
  match s with
  | visa => "visa"
  | mastercard => "mastercard"
  | amex => "amex"
  | unknown => "unknown"
  end.

Definition scheme_length (s : scheme) : Z :=
  match s with
  | amex => 15
  | _ => 16
  end.

(** The decision procedure of the specification (section 4.2), in its
    priority order: with fewer than 6 digits the first digit decides; with
    6, the leading digits, then the numeric range. *)
Definition classify_spec (bin : str) : scheme :=
  if len bin <? 6 then
    match bin with
    | c1 :: _ =>
        if Ascii.eqb c1 "4" then visa
        else if Ascii.eqb c1 "3" then amex
        else unknown
    | [] => unknown
    end
  else
    match bin with
    | c1 :: c2 :: _ =>
        if Ascii.eqb c1 "4" then visa
        else if Ascii.eqb c1 "3" && (Ascii.eqb c2 "4" || Ascii.eqb c2 "7") then amex
        else if Ascii.eqb c1 "5"
                && existsb (Ascii.eqb c2) ["1"; "2"; "3"; "4"; "5"]%char then mastercard
        else if (222100 <=? decimal_value bin) && (decimal_value bin <=? 272099)
             then mastercard
        else unknown
    | _ => unknown
    end.

(** The month a date falls in, months being counted from year 0. *)
Definition month_index (d : date) : Z := 12 * year d + month d.

(** The month and day of [ord2ymd], from the day of the year [n], counted
    from 0, and whether the year is a leap year. *)
Definition month_day (leapyear : bool) (n : Z) : Z * Z :=
  let m := Z.shiftr (n + 50) 5 in
  let preceding := DAYS_BEFORE_MONTH m + (if (2 <? m) && leapyear then 1 else 0) in
  if n <? preceding then
    let m := m - 1 in
    let preceding :=
      preceding - (DAYS_IN_MONTH m + (if (m =? 2) && leapyear then 1 else 0)) in
    (m, n - preceding + 1)
  else (m, n - preceding + 1).

(** [P] on the [n] integers from [lo] on. *)
Fixpoint all_from (P : Z -> bool) (lo : Z) (n : positive) : bool :=
  match n with
  | xH => P lo
  | xO p => all_from P lo p && all_from P (lo + Z.pos p) p
  | xI p => P lo && all_from P (lo + 1) p && all_from P (lo + 1 + Z.pos p) p
  end.

(** [month_day] is right at the day [n] of a year: the month is one of the
    twelve, the day is one of that month, and [n] days precede it. *)
Definition month_day_ok (leapyear : bool) (n : Z) : bool :=
  let '(m, d) := month_day leapyear n in
  (1 <=? m) && (m <=? 12) && (1 <=? d)
  && (d <=? (if (m =? 2) && leapyear then 29 else DAYS_IN_MONTH m))
  && (DAYS_BEFORE_MONTH m + (if (2 <? m) && leapyear then 1 else 0) + d =? n + 1).

(** A month of the twelve and a day of that month. *)
Definition month_and_day (d : date) : Prop :=
  1 <= month d <= 12 /\ 1 <= day d <= days_in_month (year d) (month d).

(** The days of a year before the end of month [m], by leap flag. *)
Definition days_through_month (leap : bool) (m : Z) : Z :=
  DAYS_BEFORE_MONTH m + (if (2 <? m) && leap then 1 else 0)
  + (if (m =? 2) && leap then 29 else DAYS_IN_MONTH m).

(** [str(n)] is the decimal numeral of [n], of 3 digits below 1000 and of 4
    from 1000 on (meant for 100 <= n <= 9999). *)
Definition numeral_ok (n : Z) : bool :=
  all_ascii_digits (py_str n)
  && (decimal_value (py_str n) =? n)
  && (len (py_str n) =? (if n <? 1000 then 3 else 4)).

(** A reading of the clock to which 1800 days can be added without leaving
    the years of [datetime]. *)
Definition expiry_representable (d : date) : Prop :=
  valid_date d = true /\ year d <= 9994.

(** A reading of the clock from which every expiry date is representable
    and whose year has four digits. *)
Definition clock_reading_ok (d : date) : Prop :=
  valid_date d = true /\ 1000 <= year d <= 9994.

(** A record made by the pipeline of [generate_card] on [bin]: classify,
    synthesize, then the expiry date and the CVV. *)
Definition pipeline_record (fuel : nat) (bin : str) (c : card) : Prop :=
  exists card_type card_length w0 w1 w2 w3,
    detect_card_type bin = Ok (card_type, card_length)
    /\ generate_card_number fuel bin card_length w0 = Ok (number c, w1)
    /\ generate_expiry_date w1 = Ok ((card_month c, card_year c), w2)
    /\ generate_cvv (number c) w2 = (cvv c, w3).

(** What a call returned, without the world it left. *)
Definition value {A : Type} (r : result (A * world)) : option A :=
  match r with
  | Ok (a, _) => Some a
  | _ => None
  end.

(** A world whose random source always yields [r] and whose clock stands at [d]. *)
Definition constant_world (r : Z) (d : date) : world :=
  mkworld (fun _ => r) (fun _ => d).

(** The count of a digit at an odd or at an even position. *)
Definition luhn_term (odd_position : bool) (d : Z) : Z :=
  if odd_position then d else luhn_double d.

(** The shape of a record made for a BIN classified with [card_length]:
    four fields of ASCII digits; a number of [card_length] digits that is
    Luhn-valid and starts with the prefix kept from the BIN; a month of 2
    digits, a year of 4; a CVV of 4 digits beside a number of 15 and of 3
    otherwise. *)
Definition record_shape (bin : str) (card_length : Z) (c : card) : Prop :=
  all_ascii_digits (number c) = true
  /\ len (number c) = card_length
  /\ luhn_valid (number c)
  /\ startswith (fst (bin_prefix bin card_length)) (number c) = true
  /\ all_ascii_digits (card_month c) = true /\ len (card_month c) = 2
  /\ all_ascii_digits (card_year c) = true /\ len (card_year c) = 4
  /\ all_ascii_digits (cvv c) = true
  /\ len (cvv c) = (if len (number c) =? 15 then 4 else 3).

(** The four fields of a record are digit strings. *)
Definition digit_fields (c : card) : Prop :=
  all_ascii_digits (number c) = true /\ all_ascii_digits (card_month c) = true
  /\ all_ascii_digits (card_year c) = true /\ all_ascii_digits (cvv c) = true.



(** [check_quantity] on the decimal numeral of [n] sorts [n] as the
    comparisons of the source do. *)
Definition quantity_numeral_ok (n : Z) : bool :=
  match check_quantity (py_str n) with
  | InvalidQuantity => false
  | NotPositive => n <=? 0
  | OverMaximum q => (q =? n) && (MAX_CARDS_PER_REQUEST <? n)
  | QuantityAccepted q => (q =? n) && (0 <? n) && (n <=? MAX_CARDS_PER_REQUEST)
  end.





(** A string of ASCII characters, U+0000..U+007F. *)
Definition ascii_string (s : str) : Prop := Forall (fun c => code c < 128) s.

(** The superscript digits U+00B2, U+00B3, U+00B9: [isdigit] accepts them,
    [int] does not. *)
Definition is_superscript_digit (c : ascii) : bool :=
  (code c =? 178) || (code c =? 179) || (code c =? 185).

(** * Properties *)

(** ** Characters and conversions *)

Ltac each_char c :=
  destruct c as [[] [] [] [] [] [] [] []]; try discriminate; try reflexivity.

Lemma digit_code_bounds c : is_ascii_digit c = true -> 48 <= code c <= 57.
Proof. unfold is_ascii_digit. lia. Qed.

Lemma py_int_digit c :
  is_ascii_digit c = true -> py_int [c] = Ok (code c - 48).
Proof. each_char c. Qed.

Lemma py_str_digit d :
  0 <= d <= 9 -> py_str d = [ascii_of_N (Z.to_N (48 + d))].
Proof.
  intros H.
  assert (C : d = 0 \/ d = 1 \/ d = 2 \/ d = 3 \/ d = 4 \/ d = 5 \/ d = 6
              \/ d = 7 \/ d = 8 \/ d = 9) by lia.
  repeat (destruct C as [-> | C]; [reflexivity |]). subst; reflexivity.
Qed.

Lemma py_str_digit_is_digit d :
  0 <= d <= 9 ->
  exists c, py_str d = [c] /\ is_ascii_digit c = true /\ code c - 48 = d.
Proof.
  intros H. exists (ascii_of_N (Z.to_N (48 + d))).
  split; [now apply py_str_digit |].
  assert (C : d = 0 \/ d = 1 \/ d = 2 \/ d = 3 \/ d = 4 \/ d = 5 \/ d = 6
              \/ d = 7 \/ d = 8 \/ d = 9) by lia.
  repeat (destruct C as [-> | C]; [split; reflexivity |]). subst; split; reflexivity.
Qed.

Lemma doubled_digit_sum d :
  0 <= d <= 9 ->
  (ds <- digits_of (py_str (d * 2)) ;; Ok (sum ds)) = Ok (luhn_double d).
Proof.
  intros H.
  assert (C : d = 0 \/ d = 1 \/ d = 2 \/ d = 3 \/ d = 4 \/ d = 5 \/ d = 6
              \/ d = 7 \/ d = 8 \/ d = 9) by lia.
  repeat (destruct C as [-> | C]; [reflexivity |]). subst; reflexivity.
Qed.

Lemma all_ascii_digits_app s t :
  all_ascii_digits (s ++ t) = all_ascii_digits s && all_ascii_digits t.
Proof. apply forallb_app. Qed.

Lemma all_ascii_digits_firstn n s :
  all_ascii_digits s = true -> all_ascii_digits (firstn n s) = true.
Proof.
  revert n; induction s as [|c s IH]; intros [|n] H; simpl in *; auto.
  apply andb_true_iff in H as [Hc Hs]. now rewrite Hc, IH.
Qed.

Lemma all_ascii_digits_repeat_zero n : all_ascii_digits (repeat "0"%char n) = true.
Proof. induction n; simpl; auto. Qed.

Lemma digit_values_bounds s :
  all_ascii_digits s = true -> Forall (fun d => 0 <= d <= 9) (digit_values s).
Proof.
  induction s as [|c s IH]; simpl; intros H; constructor.
  - apply andb_true_iff in H as [Hc _]. apply digit_code_bounds in Hc. lia.
  - apply IH. now apply andb_true_iff in H as [_ Hs].
Qed.

Lemma digits_of_digit_string s :
  all_ascii_digits s = true -> digits_of s = Ok (digit_values s).
Proof.
  unfold digits_of.
  induction s as [|c s IH]; intros H; [reflexivity |].
  apply andb_true_iff in H as [Hc Hs].
  cbn [mapM]. rewrite (py_int_digit c Hc), (IH Hs). reflexivity.
Qed.

(** ** The checksum of the source is the checksum of the specification *)

Lemma sum_from a l : fold_left Z.add l a = a + sum l.
Proof.
  unfold sum. revert a; induction l as [|x l IH]; intros a; simpl; [lia |].
  rewrite IH, (IH x). lia.
Qed.

Lemma sum_cons x l : sum (x :: l) = x + sum l.
Proof. unfold sum at 1. simpl. apply sum_from. Qed.

Lemma fold_doubled l a :
  Forall (fun d => 0 <= d <= 9) l ->
  foldM (fun checksum d =>
           ds <- digits_of (py_str (d * 2)) ;; Ok (checksum + sum ds)) l a
  = Ok (a + sum (map luhn_double l)).
Proof.
  intros H; revert a; induction H as [|d l Hd Hl IH]; intros a.
  - cbn. f_equal. unfold sum; simpl; lia.
  - cbn [foldM map].
    pose proof (doubled_digit_sum d Hd) as E.
    destruct (digits_of (py_str (d * 2))) as [ds| |]; try discriminate.
    cbn in E. injection E as E. cbn [bind]. rewrite IH, sum_cons, E.
    f_equal; lia.
Qed.

Lemma every_other_bounds l :
  Forall (fun d => 0 <= d <= 9) l -> Forall (fun d => 0 <= d <= 9) (every_other l).
Proof.
  intros H. assert (G : Forall (fun d => 0 <= d <= 9) (every_other l)
                        /\ Forall (fun d => 0 <= d <= 9) (every_other (tl l))).
  { induction H as [|d l Hd Hl [IH1 IH2]]; [split; constructor |].
    split; [| exact IH1].
    cbn [every_other]. constructor; [exact Hd |].
    destruct l; [constructor | exact IH2]. }
  apply G.
Qed.

Lemma every_other_cons x l : every_other (x :: l) = x :: every_other (tl l).
Proof. destruct l; reflexivity. Qed.

Lemma luhn_weighted_slices l :
  luhn_weighted true l
  = sum (every_other l) + sum (map luhn_double (every_other (tl l)))
  /\ luhn_weighted false l
     = sum (map luhn_double (every_other l)) + sum (every_other (tl l)).
Proof.
  induction l as [|x l [IHt IHf]]; [split; reflexivity |].
  rewrite every_other_cons. cbn [luhn_weighted negb tl map].
  rewrite !sum_cons, IHt, IHf. split; lia.
Qed.

Lemma luhn_checksum_digit_string s :
  all_ascii_digits s = true ->
  luhn_checksum s = Ok (luhn_total (digit_values s) mod 10).
Proof.
  intros H. unfold luhn_checksum.
  rewrite (digits_of_digit_string s H). cbn [bind].
  pose proof (digit_values_bounds s H) as B.
  apply Forall_rev in B.
  rewrite fold_doubled.
  2:{ apply every_other_bounds. destruct (rev (digit_values s)); [constructor |].
      now inversion B. }
  cbn [bind]. unfold luhn_total.
  now rewrite (proj1 (luhn_weighted_slices _)).
Qed.

(** ** The search for the check digit *)

Lemma luhn_total_snoc ds d :
  luhn_total (ds ++ [d]) = d + luhn_weighted false (rev ds).
Proof. unfold luhn_total. rewrite rev_app_distr. reflexivity. Qed.

Lemma digit_values_app s t : digit_values (s ++ t) = digit_values s ++ digit_values t.
Proof. apply map_app. Qed.

Lemma checksum_with_digit p d :
  all_ascii_digits p = true -> 0 <= d <= 9 ->
  luhn_checksum (p ++ py_str d)
  = Ok ((d + luhn_weighted false (rev (digit_values p))) mod 10).
Proof.
  intros Hp Hd.
  destruct (py_str_digit_is_digit d Hd) as (c & E & Hc & V).
  rewrite E, luhn_checksum_digit_string.
  - rewrite digit_values_app. change (digit_values [c]) with [code c - 48].
    now rewrite luhn_total_snoc, V.
  - rewrite all_ascii_digits_app, Hp. cbn. now rewrite Hc.
Qed.

Lemma search_finds p cands :
  all_ascii_digits p = true ->
  Forall (fun d => 0 <= d <= 9) cands ->
  check_digit_search p cands
  = Ok (find (fun d => (d + luhn_weighted false (rev (digit_values p))) mod 10 =? 0)
             cands).
Proof.
  intros Hp H; induction H as [|d l Hd Hl IH]; [reflexivity |].
  cbn [check_digit_search find]. rewrite (checksum_with_digit p d Hp Hd).
  cbn [bind]. destruct (_ =? 0); [reflexivity | exact IH].
Qed.

Lemma range_10 : range 10 = [0; 1; 2; 3; 4; 5; 6; 7; 8; 9].
Proof. reflexivity. Qed.

Lemma find_check_digit w :
  find (fun d => (d + w) mod 10 =? 0) (range 10) = Some ((- w) mod 10).
Proof.
  rewrite range_10.
  assert (E : forall d, (d + w) mod 10 = (d + w mod 10) mod 10).
  { intros d. now rewrite Z.add_mod_idemp_r. }
  assert (N : (- w) mod 10 = (10 - w mod 10) mod 10).
  { Z.div_mod_to_equations. lia. }
  rewrite N. cbn [find]. rewrite !E.
  pose proof (Z.mod_pos_bound w 10 ltac:(lia)) as B.
  assert (C : w mod 10 = 0 \/ w mod 10 = 1 \/ w mod 10 = 2 \/ w mod 10 = 3
              \/ w mod 10 = 4 \/ w mod 10 = 5 \/ w mod 10 = 6 \/ w mod 10 = 7
              \/ w mod 10 = 8 \/ w mod 10 = 9) by lia.
  repeat (destruct C as [-> | C]; [reflexivity |]). rewrite C; reflexivity.
Qed.

Lemma range_10_bounds : Forall (fun d => 0 <= d <= 9) (range 10).
Proof. rewrite range_10. repeat constructor; lia. Qed.

Lemma search_result p :
  all_ascii_digits p = true ->
  check_digit_search p (range 10)
  = Ok (Some ((- luhn_weighted false (rev (digit_values p))) mod 10)).
Proof.
  intros Hp. rewrite (search_finds p _ Hp range_10_bounds).
  now rewrite find_check_digit.
Qed.

(** ** One pass of the synthesis *)

Lemma randint_bounds a b w : a <= b -> a <= fst (randint a b w) <= b.
Proof.
  intros H. unfold randint; cbn [fst].
  pose proof (Z.mod_pos_bound (rand_tape w 0%nat) (b - a + 1) ltac:(lia)). lia.
Qed.

Lemma randint_clock a b w : clock_tape (snd (randint a b w)) = clock_tape w.
Proof. reflexivity. Qed.

Lemma random_part_digits n w :
  all_ascii_digits (fst (random_part n w)) = true
  /\ List.length (fst (random_part n w)) = n
  /\ clock_tape (snd (random_part n w)) = clock_tape w.
Proof.
  revert w; induction n as [|n IH]; intros w; [repeat split; reflexivity |].
  cbn [random_part].
  pose proof (randint_bounds 0 9 w ltac:(lia)) as B.
  pose proof (randint_clock 0 9 w) as K.
  destruct (randint 0 9 w) as [d w1]. cbn [fst snd] in B, K.
  specialize (IH w1). destruct (random_part n w1) as [r w2]. cbn [fst snd] in *.
  destruct (py_str_digit_is_digit d B) as (c & E & Hc & _).
  rewrite E. unfold all_ascii_digits in *. cbn [app fst forallb List.length].
  rewrite Hc. destruct IH as (-> & -> & ->). repeat split; assumption.
Qed.

Lemma len_firstn n (s : str) :
  len (firstn n s) = Z.min (Z.of_nat n) (len s).
Proof. unfold len. rewrite length_firstn. lia. Qed.

Lemma len_app (s t : str) : len (s ++ t) = len s + len t.
Proof. unfold len. rewrite length_app. lia. Qed.

(** The lemmas on one pass of the synthesis share the BIN and the
    assumption that it is made of digits. *)
Section DigitBin.

Variable bin : str.
Hypothesis bin_digits : all_ascii_digits bin = true.

Lemma bin_prefix_digits card_length :
  all_ascii_digits (fst (bin_prefix bin card_length)) = true
  /\ len (fst (bin_prefix bin card_length)) <= 6
  /\ snd (bin_prefix bin card_length) = (if card_length =? 15 then 14 else 15).
Proof.
  pose proof bin_digits as H. unfold bin_prefix, slice_to, ljust.
  destruct (card_length =? 15); cbn [fst snd].
  - destruct (4 <=? len bin) eqn:L.
    + rewrite len_firstn. split; [now apply all_ascii_digits_firstn |]. lia.
    + apply Z.leb_gt in L.
      rewrite all_ascii_digits_app, H, all_ascii_digits_repeat_zero, len_app.
      unfold len at 2. rewrite repeat_length. lia.
  - destruct (6 <=? len bin) eqn:L6; [| destruct (4 <=? len bin) eqn:L4;
      [| destruct (len bin =? 3) eqn:L3]];
      rewrite ?len_firstn; rewrite ?all_ascii_digits_firstn by exact H;
      rewrite ?H; lia.
Qed.

(** The candidate of one pass: the prefix, random digits up to
    [digits_before_check], and the check digit found by the search. *)
Lemma candidate_shape card_length w :
  exists filler check_digit w1,
    let partial_number := fst (bin_prefix bin card_length) ++ filler in
    card_number_candidate bin card_length w
    = Ok (partial_number ++ py_str check_digit, w1)
    /\ all_ascii_digits partial_number = true
    /\ len partial_number = snd (bin_prefix bin card_length)
    /\ check_digit_search partial_number (range 10) = Ok (Some check_digit)
    /\ check_digit
       = (- luhn_weighted false (rev (digit_values partial_number))) mod 10
    /\ clock_tape w1 = clock_tape w.
Proof.
  unfold card_number_candidate.
  destruct (bin_prefix_digits card_length) as (Hp & Lp & Hn).
  destruct (bin_prefix bin card_length) as [prefix digits_before_check].
  cbn [fst snd] in *.
  assert (R : (0 <? digits_before_check - len prefix) = true).
  { apply Z.ltb_lt. destruct (card_length =? 15); lia. }
  rewrite R.
  pose proof (random_part_digits (Z.to_nat (digits_before_check - len prefix)) w)
    as (Hr & Lr & Kr).
  destruct (random_part _ w) as [r w1]. cbn [fst snd] in *.
  assert (Hpart : all_ascii_digits (prefix ++ r) = true).
  { now rewrite all_ascii_digits_app, Hp, Hr. }
  exists r, ((- luhn_weighted false (rev (digit_values (prefix ++ r)))) mod 10), w1.
  cbn zeta. unfold calculate_luhn_check_digit.
  rewrite (search_result _ Hpart). cbn [bind].
  repeat split; try assumption.
  rewrite len_app. unfold len at 2. rewrite Lr.
  apply Z.ltb_lt in R. lia.
Qed.

Lemma luhn_valid_with_check_digit p :
  all_ascii_digits p = true ->
  let d := (- luhn_weighted false (rev (digit_values p))) mod 10 in
  0 <= d <= 9
  /\ all_ascii_digits (p ++ py_str d) = true
  /\ len (p ++ py_str d) = len p + 1
  /\ luhn_valid (p ++ py_str d)
  /\ luhn_checksum (p ++ py_str d) = Ok 0.
Proof.
  intros Hp d.
  assert (Hd : 0 <= d <= 9).
  { subst d. pose proof (Z.mod_pos_bound
      (- luhn_weighted false (rev (digit_values p))) 10 ltac:(lia)). lia. }
  assert (Z0 : (d + luhn_weighted false (rev (digit_values p))) mod 10 = 0).
  { subst d. Z.div_mod_to_equations. lia. }
  split; [exact Hd |].
  pose proof (checksum_with_digit p d Hp Hd) as C. rewrite Z0 in C.
  destruct (py_str_digit_is_digit d Hd) as (c & E & Hc & V).
  rewrite E in *. rewrite all_ascii_digits_app, Hp, len_app. cbn [all_ascii_digits forallb].
  rewrite Hc. repeat split; try reflexivity; try exact C.
  unfold luhn_valid. rewrite digit_values_app.
  change (digit_values [c]) with [code c - 48].
  now rewrite luhn_total_snoc, V.
Qed.

Lemma first_pass fuel card_length w :
  exists filler check_digit w1,
    let partial_number := fst (bin_prefix bin card_length) ++ filler in
    let card_number := partial_number ++ py_str check_digit in
    card_number_candidate bin card_length w = Ok (card_number, w1)
    /\ luhn_check card_number = Ok true
    /\ generate_card_number (S fuel) bin card_length w = Ok (card_number, w1)
    /\ all_ascii_digits card_number = true
    /\ len card_number = snd (bin_prefix bin card_length) + 1
    /\ luhn_valid card_number
    /\ clock_tape w1 = clock_tape w.
Proof.
  destruct (candidate_shape card_length w)
    as (filler & d & w1 & C & Hp & Lp & _ & -> & Kw).
  cbn zeta in *.
  destruct (luhn_valid_with_check_digit _ Hp) as (_ & Hn & Ln & V & K).
  cbn zeta in *.
  exists filler, ((- luhn_weighted false
                     (rev (digit_values (fst (bin_prefix bin card_length) ++ filler))))
                  mod 10), w1.
  cbn zeta.
  assert (LC : luhn_check
                 ((fst (bin_prefix bin card_length) ++ filler)
                  ++ py_str ((- luhn_weighted false
                     (rev (digit_values (fst (bin_prefix bin card_length) ++ filler))))
                     mod 10)) = Ok true).
  { unfold luhn_check. rewrite K. reflexivity. }
  repeat split; try assumption.
  - cbn [generate_card_number]. rewrite C. cbn [bind]. rewrite LC. reflexivity.
  - rewrite Ln, Lp. reflexivity.
Qed.

End DigitBin.

Lemma startswith_app p r : startswith p (p ++ r) = true.
Proof.
  induction p as [|c p IH]; [reflexivity |].
  cbn [startswith app]. now rewrite Ascii.eqb_refl, IH.
Qed.

Lemma startswith_app_assoc p q r : startswith p ((p ++ q) ++ r) = true.
Proof. rewrite <- app_assoc. apply startswith_app. Qed.

Lemma startswith_app_left p q s :
  startswith (p ++ q) s = true -> startswith p s = true.
Proof.
  revert s; induction p as [|a p IH]; intros s H; [reflexivity |].
  destruct s as [|b s]; [discriminate |]. cbn [app startswith] in *.
  apply andb_true_iff in H as [E H]. now rewrite E, (IH s H).
Qed.

(** ** The synthesizer *)

(** C1: for every BIN made of digits and every total length in {15, 16},
    [generate_card_number] returns (one unit of fuel is enough) a string of
    decimal digits, of exactly that length, that passes the Luhn checksum:
    the total of the specification is 0 modulo 10, and [luhn_check] of the
    source accepts it. *)
Theorem generate_card_number_contract fuel bin card_length w :
  all_ascii_digits bin = true ->
  card_length = 15 \/ card_length = 16 ->
  exists card_number w1,
    generate_card_number (S fuel) bin card_length w = Ok (card_number, w1)
    /\ all_ascii_digits card_number = true
    /\ len card_number = card_length
    /\ luhn_valid card_number
    /\ luhn_check card_number = Ok true.
Proof.
  intros H L.
  destruct (first_pass bin H fuel card_length w)
    as (filler & d & w1 & _ & LC & G & Hn & Ln & V & _).
  cbn zeta in *.
  eexists; exists w1. split; [exact G |].
  repeat split; try assumption.
  rewrite Ln.
  destruct (bin_prefix_digits bin H card_length) as (_ & _ & ->).
  destruct L as [-> | ->]; reflexivity.
Qed.

Lemma generate_card_number_contract_witness :
  exists card_number w1,
    generate_card_number 1 (lit "411111") 16 (constant_world 7 (mkdate 2024 1 31))
    = Ok (card_number, w1)
    /\ all_ascii_digits card_number = true
    /\ len card_number = 16
    /\ luhn_valid card_number
    /\ luhn_check card_number = Ok true.
Proof.
  apply (generate_card_number_contract 0 (lit "411111") 16); [reflexivity | lia].
Defined.

(** C2: for every digit string [p] exactly one digit [d] of 0..9 makes
    [p] followed by [d] Luhn-valid, the search of
    [calculate_luhn_check_digit] returns from inside its loop with that
    digit, and so the function returns it: the [return 0] after the loop is
    never reached. *)
Theorem check_digit_unique_and_found p :
  all_ascii_digits p = true ->
  exists d,
    0 <= d <= 9
    /\ luhn_valid (p ++ py_str d)
    /\ luhn_checksum (p ++ py_str d) = Ok 0
    /\ (forall d', 0 <= d' <= 9 -> luhn_valid (p ++ py_str d') -> d' = d)
    /\ (forall d', 0 <= d' <= 9 -> luhn_checksum (p ++ py_str d') = Ok 0 -> d' = d)
    /\ check_digit_search p (range 10) = Ok (Some d)
    /\ calculate_luhn_check_digit p = Ok d.
Proof.
  intros Hp.
  destruct (luhn_valid_with_check_digit p Hp) as (Hd & _ & _ & V & K).
  cbn zeta in *.
  set (W := luhn_weighted false (rev (digit_values p))) in *.
  exists ((- W) mod 10).
  assert (U : forall d', 0 <= d' <= 9 -> (d' + W) mod 10 = 0 -> d' = (- W) mod 10).
  { intros d' B E. Z.div_mod_to_equations. lia. }
  repeat split; try assumption; try lia.
  - intros d' B V'. apply U; [exact B |].
    destruct (py_str_digit_is_digit d' B) as (c & E & Hc & Vc).
    unfold luhn_valid in V'. rewrite E, digit_values_app in V'.
    change (digit_values [c]) with [code c - 48] in V'.
    now rewrite luhn_total_snoc, Vc in V'.
  - intros d' B K'. apply U; [exact B |].
    rewrite (checksum_with_digit p d' Hp B) in K'. now injection K'.
  - now apply search_result.
  - unfold calculate_luhn_check_digit. now rewrite (search_result p Hp).
Qed.

Lemma check_digit_unique_and_found_witness :
  exists d,
    0 <= d <= 9
    /\ luhn_valid (lit "7992739871" ++ py_str d)
    /\ luhn_checksum (lit "7992739871" ++ py_str d) = Ok 0
    /\ (forall d', 0 <= d' <= 9 -> luhn_valid (lit "7992739871" ++ py_str d') -> d' = d)
    /\ (forall d', 0 <= d' <= 9 ->
        luhn_checksum (lit "7992739871" ++ py_str d') = Ok 0 -> d' = d)
    /\ check_digit_search (lit "7992739871") (range 10) = Ok (Some d)
    /\ calculate_luhn_check_digit (lit "7992739871") = Ok d.
Proof.
  apply (check_digit_unique_and_found (lit "7992739871")). reflexivity.
Defined.

(** C9: for every BIN made of digits and every total length in {15, 16}
    the candidate of the first pass passes the re-verification, so the
    recursive call is not taken: whatever the fuel, [generate_card_number]
    returns the candidate of its first pass, and one unit of fuel is
    enough. *)
Theorem retry_branch_unreachable bin card_length w :
  all_ascii_digits bin = true ->
  card_length = 15 \/ card_length = 16 ->
  exists card_number w1,
    card_number_candidate bin card_length w = Ok (card_number, w1)
    /\ luhn_check card_number = Ok true
    /\ generate_card_number 1 bin card_length w = Ok (card_number, w1)
    /\ forall fuel,
         generate_card_number (S fuel) bin card_length w = Ok (card_number, w1).
Proof.
  intros H _.
  destruct (first_pass bin H 0 card_length w)
    as (filler & d & w1 & C & LC & G & _).
  cbn zeta in *.
  eexists; exists w1. repeat split; try eassumption.
  intros fuel. cbn [generate_card_number]. rewrite C. cbn [bind].
  rewrite LC. reflexivity.
Qed.

Lemma retry_branch_unreachable_witness :
  exists card_number w1,
    card_number_candidate (lit "371") 15 (constant_world 3 (mkdate 2024 1 31))
    = Ok (card_number, w1)
    /\ luhn_check card_number = Ok true
    /\ generate_card_number 1 (lit "371") 15 (constant_world 3 (mkdate 2024 1 31))
       = Ok (card_number, w1)
    /\ forall fuel,
         generate_card_number (S fuel) (lit "371") 15
           (constant_world 3 (mkdate 2024 1 31)) = Ok (card_number, w1).
Proof.
  apply (retry_branch_unreachable (lit "371") 15); [reflexivity | lia].
Defined.

(** A string of five digits is no BIN (its length is not 3, 4 or 6, and the
    validator rejects it); given one all the same, [generate_card_number]
    keeps its first four digits under a total length of 16 and fills the
    fifth position from the random source. *)
Example five_digit_bin_not_a_prefix :
  (len (lit "12345") <=? 6) = true
  /\ value (generate_card_number 1 (lit "12345") 16
              (constant_world 0 (mkdate 2024 1 31)))
     = Some (lit "1234000000000006")
  /\ startswith (lit "12345") (lit "1234000000000006") = false.
Proof. repeat split; reflexivity. Qed.

(** The number returned for a digit string of any length starts with the
    prefix the synthesis takes from it.  For a total length of 15 that is
    the string zero-padded to 4 digits when it is shorter than 4, and its
    first 4 digits otherwise.  For a total length of 16 it is the whole
    string when it is shorter than 4, its first 4 digits when it has 4 or
    5, and its first 6 digits otherwise. *)
Lemma number_starts_with_bin_prefix fuel bin card_length w :
  all_ascii_digits bin = true ->
  card_length = 15 \/ card_length = 16 ->
  exists card_number w1,
    generate_card_number (S fuel) bin card_length w = Ok (card_number, w1)
    /\ (card_length = 15 -> len bin < 4 ->
        startswith (bin ++ repeat "0"%char (4 - List.length bin)) card_number = true)
    /\ (card_length = 15 -> 4 <= len bin ->
        startswith (firstn 4 bin) card_number = true)
    /\ (card_length = 16 -> len bin < 4 -> startswith bin card_number = true)
    /\ (card_length = 16 -> 4 <= len bin < 6 ->
        startswith (firstn 4 bin) card_number = true)
    /\ (card_length = 16 -> 6 <= len bin ->
        startswith (firstn 6 bin) card_number = true).
Proof.
  intros H L.
  destruct (first_pass bin H fuel card_length w)
    as (filler & d & w1 & _ & _ & G & _).
  cbn zeta in *.
  eexists; exists w1. split; [exact G |].
  unfold bin_prefix, slice_to, ljust.
  repeat split; intros -> B; cbn [Z.eqb Pos.eqb fst].
  - destruct (Z.leb_spec 4 (len bin)); [lia |].
    replace (Z.to_nat (4 - len bin)) with (4 - List.length bin)%nat
      by (unfold len; lia).
    apply startswith_app_assoc.
  - destruct (Z.leb_spec 4 (len bin)); [| lia].
    apply startswith_app_assoc.
  - destruct (Z.leb_spec 6 (len bin)); [lia |].
    destruct (Z.leb_spec 4 (len bin)); [lia |].
    destruct (Z.eqb_spec (len bin) 3) as [E|E].
    + unfold len in E. rewrite <- (firstn_all bin) at 1.
      replace (List.length bin) with (Z.to_nat 3) by lia.
      apply startswith_app_assoc.
    + apply startswith_app_assoc.
  - destruct (Z.leb_spec 6 (len bin)); [lia |].
    destruct (Z.leb_spec 4 (len bin)); [| lia].
    apply startswith_app_assoc.
  - destruct (Z.leb_spec 6 (len bin)); [| lia].
    apply startswith_app_assoc.
Qed.

(** C5: for every BIN (digits, of length 3, 4 or 6) and every total length
    in {15, 16} the number returned by [generate_card_number] starts with
    the BIN when the BIN is no longer than the cap (4 for a total length
    of 15, 6 for 16), the BIN of 3 digits being zero-padded to 4 under a
    total length of 15; and when the BIN is longer than the cap (6 digits
    under a total length of 15) the number starts with the BIN truncated to
    the cap, its first 4 digits. *)
Theorem number_starts_with_bin fuel bin card_length w :
  all_ascii_digits bin = true ->
  len bin = 3 \/ len bin = 4 \/ len bin = 6 ->
  card_length = 15 \/ card_length = 16 ->
  exists card_number w1,
    generate_card_number (S fuel) bin card_length w = Ok (card_number, w1)
    /\ (card_length = 16 -> startswith bin card_number = true)
    /\ (card_length = 15 -> len bin <= 4 -> startswith bin card_number = true)
    /\ (card_length = 15 -> len bin = 3 ->
        startswith (bin ++ ["0"%char]) card_number = true)
    /\ (card_length = 15 -> 4 < len bin ->
        startswith (firstn 4 bin) card_number = true).
Proof.
  intros H L C.
  destruct (number_starts_with_bin_prefix fuel bin card_length w H C)
    as (n & w1 & G & P15 & T15 & P16 & Q16 & T16).
  exists n, w1. split; [exact G |].
  assert (All : forall k, len bin = Z.of_nat k -> firstn k bin = bin).
  { intros k E. apply firstn_all2. unfold len in E. lia. }
  repeat split.
  - intros E. destruct L as [L | [L | L]].
    + apply P16; [exact E | lia].
    + rewrite <- (All 4%nat L). apply Q16; [exact E | lia].
    + rewrite <- (All 6%nat L). apply T16; [exact E | lia].
  - intros E B. destruct L as [L | [L | L]]; [| | lia].
    + specialize (P15 E ltac:(lia)).
      now apply startswith_app_left in P15.
    + rewrite <- (All 4%nat L). apply T15; [exact E | lia].
  - intros E L3. specialize (P15 E ltac:(lia)).
    replace (4 - List.length bin)%nat with 1%nat in P15
      by (unfold len in L3; lia).
    exact P15.
  - intros E B. apply T15; [exact E | lia].
Qed.

Lemma number_starts_with_bin_witness :
  exists card_number w1,
    generate_card_number 1 (lit "371") 15 (constant_world 0 (mkdate 2024 1 31))
    = Ok (card_number, w1)
    /\ (15 = 16 -> startswith (lit "371") card_number = true)
    /\ (15 = 15 -> len (lit "371") <= 4 ->
        startswith (lit "371") card_number = true)
    /\ (15 = 15 -> len (lit "371") = 3 ->
        startswith (lit "371" ++ ["0"%char]) card_number = true)
    /\ (15 = 15 -> 4 < len (lit "371") ->
        startswith (firstn 4 (lit "371")) card_number = true).
Proof.
  apply (number_starts_with_bin 0 (lit "371") 15);
    [reflexivity | left; reflexivity | lia].
Defined.

(** ** The classifier *)

Lemma digit_char_facts c :
  is_ascii_digit c = true ->
  int_normalise c = c /\ is_ascii_space c = false
  /\ Ascii.eqb c "-" = false /\ Ascii.eqb c "+" = false
  /\ digit_value c = Some (code c - 48).
Proof. each_char c; intros _; repeat split. Qed.

Lemma int_digits_digit_string s acc :
  all_ascii_digits s = true ->
  int_digits acc s
  = Some (fold_left (fun acc c => 10 * acc + (code c - 48)) s acc, []).
Proof.
  revert acc; induction s as [|c s IH]; intros acc H; [reflexivity |].
  apply andb_true_iff in H as [Hc Hs].
  destruct (digit_char_facts c Hc) as (_ & _ & _ & _ & D).
  cbn [int_digits fold_left]. rewrite D. now apply IH.
Qed.

Lemma int_normalise_digit_string s :
  all_ascii_digits s = true -> map int_normalise s = s.
Proof.
  induction s as [|c s IH]; intros H; [reflexivity |].
  apply andb_true_iff in H as [Hc Hs].
  destruct (digit_char_facts c Hc) as (N & _).
  cbn [map]. now rewrite N, IH.
Qed.

(** [int] of a non-empty digit string is the number it denotes. *)
Lemma py_int_digit_string s :
  s <> [] -> all_ascii_digits s = true -> py_int s = Ok (decimal_value s).
Proof.
  intros NE H. unfold py_int. rewrite (int_normalise_digit_string s H).
  destruct s as [|c r]; [congruence |].
  pose proof H as H'. apply andb_true_iff in H' as [Hc Hr].
  destruct (digit_char_facts c Hc) as (_ & SP & MI & PL & D).
  cbn [skip_space]. rewrite SP, MI, PL.
  cbn [int_unsigned]. rewrite D, (int_digits_digit_string r _ Hr).
  cbn [skip_space]. reflexivity.
Qed.

(** The classifications the specification lists. *)
Example classifier_examples :
  detect_card_type (lit "4111") = Ok ("visa"%string, 16)
  /\ detect_card_type (lit "340000") = Ok ("amex"%string, 15)
  /\ detect_card_type (lit "510000") = Ok ("mastercard"%string, 16)
  /\ detect_card_type (lit "222100") = Ok ("mastercard"%string, 16)
  /\ detect_card_type (lit "999999") = Ok ("unknown"%string, 16)
  /\ detect_card_type (lit "300") = Ok ("amex"%string, 15).
Proof. repeat split; reflexivity. Qed.

(** On a BIN of fewer than 6 digits only the first digit decides. *)
Lemma detect_card_type_short c r :
  all_ascii_digits (c :: r) = true ->
  len (c :: r) < 6 ->
  detect_card_type (c :: r)
  = Ok (if Ascii.eqb c "4" then ("visa"%string, 16)
        else if Ascii.eqb c "3" then ("amex"%string, 15)
        else ("unknown"%string, 16)).
Proof.
  intros H L. unfold detect_card_type.
  rewrite (py_int_digit_string (c :: r)) by (congruence || exact H).
  cbn [bind]. apply Z.ltb_lt in L. rewrite L. cbn [index0 bind].
  destruct (Ascii.eqb c "4"); [reflexivity |].
  destruct (Ascii.eqb c "3"); reflexivity.
Qed.

(** C3: on every validated BIN (a digit string of length 3, 4 or 6)
    [detect_card_type] returns the scheme, with the scheme's total length,
    that the decision procedure of the specification gives. *)
Theorem detect_card_type_refines_spec bin :
  all_ascii_digits bin = true ->
  len bin = 3 \/ len bin = 4 \/ len bin = 6 ->
  detect_card_type bin
  = Ok (scheme_tag (classify_spec bin), scheme_length (classify_spec bin)).
Proof.
  intros H L.
  destruct bin as [|c1 r]; [cbn in L; lia |].
  destruct (Z.ltb_spec (len (c1 :: r)) 6) as [S6|S6].
  - rewrite (detect_card_type_short c1 r H S6). unfold classify_spec.
    apply Z.ltb_lt in S6. rewrite S6.
    destruct (Ascii.eqb c1 "4"); [reflexivity |].
    destruct (Ascii.eqb c1 "3"); reflexivity.
  - destruct r as [|c2 r]; [cbn in S6; lia |].
    unfold detect_card_type, classify_spec.
    rewrite (py_int_digit_string (c1 :: c2 :: r)) by (congruence || exact H).
    cbn [bind]. apply Z.ltb_ge in S6. rewrite S6.
    cbn [lit list_ascii_of_string startswith existsb].
    rewrite !andb_true_r, !orb_false_r.
    rewrite ?(Ascii.eqb_sym "4" c1), ?(Ascii.eqb_sym "3" c1), ?(Ascii.eqb_sym "5" c1),
      ?(Ascii.eqb_sym "1" c2), ?(Ascii.eqb_sym "2" c2), ?(Ascii.eqb_sym "3" c2),
      ?(Ascii.eqb_sym "4" c2), ?(Ascii.eqb_sym "5" c2), ?(Ascii.eqb_sym "7" c2).
    repeat match goal with
           | |- context [Ascii.eqb ?a ?b] => destruct (Ascii.eqb a b)
           end;
      cbn [andb orb]; try reflexivity; destruct (_ && _); reflexivity.
Qed.

Lemma detect_card_type_refines_spec_witness :
  detect_card_type (lit "222100")
  = Ok (scheme_tag (classify_spec (lit "222100")),
        scheme_length (classify_spec (lit "222100"))).
Proof.
  apply (detect_card_type_refines_spec (lit "222100")); [reflexivity |].
  right; right; reflexivity.
Defined.

(** ** The calendar *)

Lemma all_from_correct P n :
  forall lo, all_from P lo n = true ->
  forall z, lo <= z < lo + Z.pos n -> P z = true.
Proof.
  induction n as [p IH | p IH |]; intros lo H z B; cbn [all_from] in H.
  - apply andb_true_iff in H as [H H2]. apply andb_true_iff in H as [H0 H1].
    destruct (Z.eq_dec z lo) as [-> | NE]; [exact H0 |].
    destruct (Z.lt_ge_cases z (lo + 1 + Z.pos p)).
    + apply (IH _ H1). lia.
    + apply (IH _ H2). lia.
  - apply andb_true_iff in H as [H1 H2].
    destruct (Z.lt_ge_cases z (lo + Z.pos p)).
    + apply (IH _ H1). lia.
    + apply (IH _ H2). lia.
  - assert (z = lo) as -> by lia. exact H.
Qed.

Lemma month_day_common_year n :
  0 <= n <= 364 -> month_day_ok false n = true.
Proof.
  intros B. apply (all_from_correct (month_day_ok false) 365 0); [| lia].
  vm_compute. reflexivity.
Qed.

Lemma month_day_leap_year n :
  0 <= n <= 365 -> month_day_ok true n = true.
Proof.
  intros B. apply (all_from_correct (month_day_ok true) 366 0); [| lia].
  vm_compute. reflexivity.
Qed.

Lemma days_before_year_succ y :
  days_before_year (y + 1) = days_before_year y + 365 + (if is_leap y then 1 else 0).
Proof.
  unfold days_before_year, is_leap.
  replace (y + 1 - 1) with y by lia.
  destruct (Z.eqb_spec (y mod 4) 0), (Z.eqb_spec (y mod 100) 0),
    (Z.eqb_spec (y mod 400) 0); cbn [negb andb orb];
    Z.div_mod_to_equations; lia.
Qed.

Lemma ord2ymd_split o :
  exists y n,
    0 <= n <= 365 /\ (n = 365 -> is_leap y = true)
    /\ o = days_before_year y + n + 1
    /\ ord2ymd o = mkdate y (fst (month_day (is_leap y) n))
                            (snd (month_day (is_leap y) n)).
Proof.
  unfold ord2ymd. cbv zeta.
  set (n400 := (o - 1) / 146097).
  set (r400 := (o - 1) mod 146097).
  set (n100 := r400 / 36524).
  set (r100 := r400 mod 36524).
  set (n4 := r100 / 1461).
  set (r4 := r100 mod 1461).
  set (n1 := r4 / 365).
  set (r1 := r4 mod 365).
  assert (E400 : o - 1 = 146097 * n400 + r400 /\ 0 <= r400 < 146097).
  { subst n400 r400. Z.div_mod_to_equations. lia. }
  assert (E100 : r400 = 36524 * n100 + r100 /\ 0 <= r100 < 36524).
  { subst n100 r100. Z.div_mod_to_equations. lia. }
  assert (E4 : r100 = 1461 * n4 + r4 /\ 0 <= r4 < 1461).
  { subst n4 r4. Z.div_mod_to_equations. lia. }
  assert (E1 : r4 = 365 * n1 + r1 /\ 0 <= r1 < 365).
  { subst n1 r1. Z.div_mod_to_equations. lia. }
  clearbody n400 r400 n100 r100 n4 r4 n1 r1.
  assert (B100 : 0 <= n100 <= 4) by lia.
  assert (B4 : 0 <= n4 <= 24) by lia.
  assert (B1 : 0 <= n1 <= 4) by lia.
  set (y := n400 * 400 + 1 + n100 * 100 + n4 * 4 + n1).
  destruct ((n1 =? 4) || (n100 =? 4)) eqn:Last.
  - exists (y - 1), 365.
    assert (L : is_leap (y - 1) = true).
    { unfold is_leap.
      apply orb_true_iff in Last.
      destruct (Z.eqb_spec ((y - 1) mod 4) 0), (Z.eqb_spec ((y - 1) mod 100) 0),
        (Z.eqb_spec ((y - 1) mod 400) 0); cbn [negb andb orb]; try reflexivity;
        exfalso; subst y; destruct Last as [K|K]; apply Z.eqb_eq in K;
        Z.div_mod_to_equations; lia. }
    rewrite L. repeat split; try lia.
    unfold days_before_year. subst y.
    apply orb_true_iff in Last. destruct Last as [K|K]; apply Z.eqb_eq in K;
      Z.div_mod_to_equations; lia.
  - apply orb_false_iff in Last. destruct Last as [K1 K100].
    apply Z.eqb_neq in K1, K100.
    exists y, r1.
    assert (L : is_leap y = (n1 =? 3) && (negb (n4 =? 24) || (n100 =? 3))).
    { unfold is_leap. subst y.
      destruct (Z.eqb_spec n1 3), (Z.eqb_spec n4 24), (Z.eqb_spec n100 3);
      destruct (Z.eqb_spec ((n400 * 400 + 1 + n100 * 100 + n4 * 4 + n1) mod 4) 0),
        (Z.eqb_spec ((n400 * 400 + 1 + n100 * 100 + n4 * 4 + n1) mod 100) 0),
        (Z.eqb_spec ((n400 * 400 + 1 + n100 * 100 + n4 * 4 + n1) mod 400) 0);
        cbn [negb andb orb]; try reflexivity; exfalso;
        Z.div_mod_to_equations; lia. }
    rewrite L. repeat split; try lia.
    + unfold days_before_year. subst y. Z.div_mod_to_equations. lia.
    + unfold month_day. cbv zeta.
      destruct (r1 <? _); reflexivity.
Qed.

(** [ord2ymd] yields a date of the calendar, whose ordinal is the argument. *)
Lemma ord2ymd_ymd2ord o : month_and_day (ord2ymd o) /\ ymd2ord (ord2ymd o) = o.
Proof.
  destruct (ord2ymd_split o) as (y & n & B & L & E & ->).
  assert (K : month_day_ok (is_leap y) n = true).
  { destruct (is_leap y).
    - now apply month_day_leap_year.
    - apply month_day_common_year.
      destruct (Z.eq_dec n 365) as [N|N]; [now specialize (L N) | lia]. }
  unfold month_day_ok in K. destruct (month_day (is_leap y) n) as [m d].
  repeat (apply andb_true_iff in K as [K ?]).
  unfold month_and_day, ymd2ord, days_in_month, days_before_month.
  cbn [year month day fst snd]. lia.
Qed.

Lemma days_before_year_mono y y' : y <= y' -> days_before_year y <= days_before_year y'.
Proof. intros H. unfold days_before_year. Z.div_mod_to_equations. lia. Qed.

Lemma days_before_year_5 y : days_before_year y + 1825 <= days_before_year (y + 5).
Proof. unfold days_before_year. Z.div_mod_to_equations. lia. Qed.

Ltac each_month m H :=
  let C := fresh "C" in
  assert (C : m = 1 \/ m = 2 \/ m = 3 \/ m = 4 \/ m = 5 \/ m = 6 \/ m = 7 \/ m = 8
              \/ m = 9 \/ m = 10 \/ m = 11 \/ m = 12) by lia;
  clear H;
  repeat (destruct C as [-> | C]); [.. | subst m].

Lemma days_through_month_bound leap m :
  1 <= m <= 12 -> days_through_month leap m <= 365 + (if leap then 1 else 0).
Proof. intros H. each_month m H; destruct leap; cbv; congruence. Qed.

Lemma days_before_month_nonneg leap m :
  1 <= m <= 12 -> 0 <= DAYS_BEFORE_MONTH m + (if (2 <? m) && leap then 1 else 0).
Proof. intros H. each_month m H; destruct leap; cbv; congruence. Qed.

Lemma days_through_earlier_month la lb m m' :
  1 <= m -> m < m' -> m' <= 12 ->
  days_through_month la m
  <= DAYS_BEFORE_MONTH m' + (if (2 <? m') && lb then 1 else 0) + 1.
Proof.
  intros H1 H2 H3.
  assert (H : 1 <= m <= 12) by lia. assert (H' : 1 <= m' <= 12) by lia.
  each_month m H; each_month m' H'; try lia; destruct la, lb; cbv; congruence.
Qed.

Lemma days_through_earlier_month_same_year l m m' :
  1 <= m -> m < m' -> m' <= 12 ->
  days_through_month l m
  <= DAYS_BEFORE_MONTH m' + (if (2 <? m') && l then 1 else 0).
Proof.
  intros H1 H2 H3.
  assert (H : 1 <= m <= 12) by lia. assert (H' : 1 <= m' <= 12) by lia.
  each_month m H; each_month m' H'; try lia; destruct l; cbv; congruence.
Qed.

Lemma ymd2ord_bounds d :
  month_and_day d ->
  days_before_year (year d) + 1 <= ymd2ord d
  /\ ymd2ord d <= days_before_year (year d)
                  + days_through_month (is_leap (year d)) (month d)
  /\ ymd2ord d <= days_before_year (year d + 1).
Proof.
  intros [M D]. unfold ymd2ord, days_before_month.
  pose proof (days_before_month_nonneg (is_leap (year d)) (month d) M).
  pose proof (days_through_month_bound (is_leap (year d)) (month d) M).
  rewrite days_before_year_succ.
  unfold days_through_month in *. unfold days_in_month in D. lia.
Qed.

(** A date of an earlier month has a smaller ordinal. *)
Lemma earlier_month_earlier_day a b :
  month_and_day a -> month_and_day b ->
  month_index a < month_index b -> ymd2ord a < ymd2ord b.
Proof.
  intros Va Vb I. unfold month_index in I.
  destruct (ymd2ord_bounds a Va) as (_ & Ha & Ha').
  destruct (ymd2ord_bounds b Vb) as (Hb & _ & _).
  destruct Va as [Ma Da], Vb as [Mb Db].
  destruct (Z.lt_trichotomy (year a) (year b)) as [Y | [Y | Y]]; [| | lia].
  - pose proof (days_before_year_mono (year a + 1) (year b) ltac:(lia)). lia.
  - assert (Mlt : month a < month b) by lia.
    pose proof (days_through_earlier_month_same_year (is_leap (year a))
                  (month a) (month b) ltac:(lia) Mlt ltac:(lia)) as T.
    unfold ymd2ord at 2. unfold days_before_month. rewrite <- Y. lia.
Qed.

(** A date more than 60 months later is more than 1800 days later. *)
Lemma sixty_months_1800_days a b :
  month_and_day a -> month_and_day b ->
  month_index a + 61 <= month_index b -> ymd2ord a + 1801 <= ymd2ord b.
Proof.
  intros Va Vb I. unfold month_index in I.
  destruct (ymd2ord_bounds a Va) as (_ & Ha & Ha').
  destruct (ymd2ord_bounds b Vb) as (Hb & _ & _).
  destruct Va as [Ma Da], Vb as [Mb Db].
  pose proof (days_before_year_5 (year a)) as F.
  destruct (Z.le_gt_cases (year a + 6) (year b)) as [Y | Y].
  - pose proof (days_before_year_mono (year a + 6) (year b) Y) as Mo.
    pose proof (days_before_year_succ (year a + 5)) as S5.
    replace (year a + 5 + 1) with (year a + 6) in S5 by lia.
    pose proof (days_before_year_succ (year a)) as S0.
    destruct (is_leap (year a + 5)), (is_leap (year a)); lia.
  - assert (Yb : year b = year a + 5) by lia.
    assert (Mlt : month a < month b) by lia.
    pose proof (days_through_earlier_month (is_leap (year a)) (is_leap (year b))
                  (month a) (month b) ltac:(lia) Mlt ltac:(lia)) as T.
    unfold ymd2ord at 2. unfold days_before_month. rewrite Yb in *. lia.
Qed.

(** The month reached by adding at most 1800 days to a date. *)
Lemma month_after_days now n :
  month_and_day now -> 0 <= n <= 1800 ->
  let d := ord2ymd (ymd2ord now + n) in
  1 <= month d <= 12
  /\ month_index now <= month_index d <= month_index now + 60.
Proof.
  intros V N d.
  destruct (ord2ymd_ymd2ord (ymd2ord now + n)) as [Vd E]. fold d in Vd, E.
  split; [apply Vd |]. split.
  - destruct (Z.le_gt_cases (month_index now) (month_index d)) as [|G]; [assumption |].
    pose proof (earlier_month_earlier_day d now Vd V ltac:(lia)). lia.
  - destruct (Z.le_gt_cases (month_index d) (month_index now + 60)) as [|G];
      [assumption |].
    pose proof (sixty_months_1800_days now d V Vd ltac:(lia)). lia.
Qed.

Lemma ordinal_in_range now n :
  valid_date now = true -> year now <= 9994 -> 0 <= n <= 1800 ->
  month_and_day now /\ 0 < ymd2ord now + n <= MAXORDINAL.
Proof.
  intros V Y N. unfold valid_date in V.
  repeat (apply andb_true_iff in V as [V ?]).
  assert (M : month_and_day now) by (unfold month_and_day; lia).
  split; [exact M |].
  destruct (ymd2ord_bounds now M) as (Lo & _ & Hi).
  pose proof (days_before_year_mono 1 (year now) ltac:(lia)) as L1.
  pose proof (days_before_year_mono (year now + 1) 9995 ltac:(lia)) as L2.
  change (days_before_year 1) with 0 in L1.
  change (days_before_year 9995) with 3650233 in L2.
  unfold MAXORDINAL. lia.
Qed.

(** ** The attribute generators *)

Lemma numerals_100_9999 n :
  100 <= n <= 9999 ->
  all_ascii_digits (py_str n) = true
  /\ decimal_value (py_str n) = n
  /\ len (py_str n) = (if n <? 1000 then 3 else 4).
Proof.
  intros B.
  assert (K : numeral_ok n = true).
  { apply (all_from_correct numeral_ok 9900 100); [| lia].
    vm_cast_no_check (eq_refl true). }
  unfold numeral_ok in K. repeat (apply andb_true_iff in K as [K ?]).
  repeat split; [assumption | lia | lia].
Qed.

Lemma month_numerals m :
  1 <= m <= 12 ->
  all_ascii_digits (zfill 2 (py_str m)) = true
  /\ decimal_value (zfill 2 (py_str m)) = m
  /\ len (zfill 2 (py_str m)) = 2.
Proof. intros H. each_month m H; repeat split; reflexivity. Qed.

(** C6: [generate_cvv] returns the numeral of an integer of 1000..9999,
    which has 4 digits, when the card number has length 15, and the numeral
    of an integer of 100..999, which has 3 digits, otherwise; the length of
    what it returns is a function of the length of the card number alone. *)
Theorem generate_cvv_by_number_length card_number w :
  exists n,
    fst (generate_cvv card_number w) = py_str n
    /\ all_ascii_digits (py_str n) = true
    /\ decimal_value (py_str n) = n
    /\ (len card_number = 15 -> 1000 <= n <= 9999 /\ len (py_str n) = 4)
    /\ (len card_number <> 15 -> 100 <= n <= 999 /\ len (py_str n) = 3)
    /\ len (fst (generate_cvv card_number w))
       = (if len card_number =? 15 then 4 else 3).
Proof.
  unfold generate_cvv.
  destruct (Z.eqb_spec (len card_number) 15) as [E|E].
  - pose proof (randint_bounds 1000 9999 w ltac:(lia)) as B.
    destruct (randint 1000 9999 w) as [n w1]. cbn [fst] in *.
    destruct (numerals_100_9999 n ltac:(lia)) as (D & V & L).
    destruct (Z.ltb_spec n 1000); [lia |].
    exists n. repeat split; try assumption; try lia.
  - pose proof (randint_bounds 100 999 w ltac:(lia)) as B.
    destruct (randint 100 999 w) as [n w1]. cbn [fst] in *.
    destruct (numerals_100_9999 n ltac:(lia)) as (D & V & L).
    destruct (Z.ltb_spec n 1000); [| lia].
    exists n. repeat split; try assumption; try lia.
Qed.

Lemma generate_cvv_clock card_number w :
  clock_tape (snd (generate_cvv card_number w)) = clock_tape w.
Proof. unfold generate_cvv. destruct (_ =? _); reflexivity. Qed.

Lemma generate_expiry_date_steps w :
  generate_expiry_date w
  = (expiry_date <- add_days (clock_tape w 0%nat) (fst (randint 6 60 w) * 30) ;;
     Ok ((zfill 2 (py_str (month expiry_date)), py_str (year expiry_date)),
         mkworld (fun i => rand_tape w (S i)) (fun i => clock_tape w (S i)))).
Proof. reflexivity. Qed.

(** C8: when the clock reads a date whose year has four digits and from
    which 1800 days can be added, [generate_expiry_date] returns, for the
    [m] of 6..60 it drew, the month and the year of that date plus [30 * m]
    days: the month as a two-digit zero-padded numeral of 1..12, the year
    as a four-digit numeral, the month lying between the month of the
    reading and the month 60 months after it, both included. *)
Theorem generate_expiry_date_bounds w :
  clock_reading_ok (clock_tape w 0%nat) ->
  exists months_ahead expiry mm yyyy w1,
    generate_expiry_date w = Ok ((mm, yyyy), w1)
    /\ 6 <= months_ahead <= 60
    /\ add_days (clock_tape w 0%nat) (months_ahead * 30) = Ok expiry
    /\ mm = zfill 2 (py_str (month expiry))
    /\ len mm = 2 /\ all_ascii_digits mm = true
    /\ decimal_value mm = month expiry /\ 1 <= month expiry <= 12
    /\ yyyy = py_str (year expiry)
    /\ len yyyy = 4 /\ all_ascii_digits yyyy = true
    /\ decimal_value yyyy = year expiry
    /\ month_index (clock_tape w 0%nat) <= month_index expiry
       <= month_index (clock_tape w 0%nat) + 60
    /\ clock_tape w1 = (fun i => clock_tape w (S i)).
Proof.
  intros [V Y].
  pose proof (randint_bounds 6 60 w ltac:(lia)) as B.
  destruct (ordinal_in_range (clock_tape w 0%nat) (fst (randint 6 60 w) * 30)
              V ltac:(lia) ltac:(lia)) as [M R].
  destruct (month_after_days (clock_tape w 0%nat) (fst (randint 6 60 w) * 30)
              M ltac:(lia)) as [Mo I].
  cbv zeta in Mo, I.
  assert (A : add_days (clock_tape w 0%nat) (fst (randint 6 60 w) * 30)
              = Ok (ord2ymd (ymd2ord (clock_tape w 0%nat)
                             + fst (randint 6 60 w) * 30))).
  { unfold add_days.
    destruct (Z.ltb_spec 0 (ymd2ord (clock_tape w 0%nat)
                            + fst (randint 6 60 w) * 30)); [| lia].
    destruct (Z.leb_spec (ymd2ord (clock_tape w 0%nat)
                          + fst (randint 6 60 w) * 30) MAXORDINAL); [| lia].
    reflexivity. }
  rewrite generate_expiry_date_steps, A. cbn [bind].
  generalize dependent (ord2ymd (ymd2ord (clock_tape w 0%nat)
                                 + fst (randint 6 60 w) * 30)).
  intros expiry Mo I A.
  destruct (month_numerals (month expiry) Mo) as (D2 & V2 & L2).
  assert (Ye : 1000 <= year expiry <= 9999).
  { unfold month_index in I. destruct M as [Mn _]. lia. }
  destruct (numerals_100_9999 (year expiry) ltac:(lia)) as (D4 & V4 & L4).
  destruct (Z.ltb_spec (year expiry) 1000); [lia |].
  exists (fst (randint 6 60 w)), expiry, (zfill 2 (py_str (month expiry))),
    (py_str (year expiry)),
    (mkworld (fun i => rand_tape w (S i)) (fun i => clock_tape w (S i))).
  repeat split; try assumption; try lia.
Qed.

Lemma generate_expiry_date_bounds_witness :
  exists months_ahead expiry mm yyyy w1,
    generate_expiry_date (constant_world 54 (mkdate 2024 1 31)) = Ok ((mm, yyyy), w1)
    /\ 6 <= months_ahead <= 60
    /\ add_days (mkdate 2024 1 31) (months_ahead * 30) = Ok expiry
    /\ mm = zfill 2 (py_str (month expiry))
    /\ len mm = 2 /\ all_ascii_digits mm = true
    /\ decimal_value mm = month expiry /\ 1 <= month expiry <= 12
    /\ yyyy = py_str (year expiry)
    /\ len yyyy = 4 /\ all_ascii_digits yyyy = true
    /\ decimal_value yyyy = year expiry
    /\ month_index (mkdate 2024 1 31) <= month_index expiry
       <= month_index (mkdate 2024 1 31) + 60
    /\ clock_tape w1 = (fun i => mkdate 2024 1 31).
Proof.
  apply (generate_expiry_date_bounds (constant_world 54 (mkdate 2024 1 31))).
  split; [reflexivity | cbn; lia].
Defined.

(** The expiry date reaches the 60th month after the reading: 1800 days
    after 2024-01-31 is 2029-01-04. *)
Example expiry_sixty_months_later :
  value (generate_expiry_date (constant_world 54 (mkdate 2024 1 31)))
  = Some (lit "01", lit "2029").
Proof. reflexivity. Qed.

(** ** One record, and a batch *)

Lemma generate_expiry_date_returns w :
  expiry_representable (clock_tape w 0%nat) ->
  exists mm yyyy,
    generate_expiry_date w
    = Ok ((mm, yyyy),
          mkworld (fun i => rand_tape w (S i)) (fun i => clock_tape w (S i))).
Proof.
  intros [V Y].
  pose proof (randint_bounds 6 60 w ltac:(lia)) as B.
  destruct (ordinal_in_range (clock_tape w 0%nat) (fst (randint 6 60 w) * 30)
              V Y ltac:(lia)) as [_ R].
  rewrite generate_expiry_date_steps. unfold add_days.
  destruct (Z.ltb_spec 0 (ymd2ord (clock_tape w 0%nat)
                          + fst (randint 6 60 w) * 30)); [| lia].
  destruct (Z.leb_spec (ymd2ord (clock_tape w 0%nat)
                        + fst (randint 6 60 w) * 30) MAXORDINAL); [| lia].
  cbn [andb bind]. eauto.
Qed.

(** [generate_card] on a BIN made of digits, at a clock reading from which
    1800 days can be added: the pipeline runs to its end. *)
Lemma generate_card_runs fuel bin w card_type card_length :
  all_ascii_digits bin = true ->
  detect_card_type bin = Ok (card_type, card_length) ->
  card_length = 15 \/ card_length = 16 ->
  expiry_representable (clock_tape w 0%nat) ->
  exists c w3,
    generate_card (S fuel) bin w = Ok (c, w3)
    /\ pipeline_record (S fuel) bin c
    /\ all_ascii_digits (number c) = true
    /\ len (number c) = card_length
    /\ luhn_valid (number c)
    /\ luhn_check (number c) = Ok true
    /\ clock_tape w3 = (fun i => clock_tape w (S i)).
Proof.
  intros H T L C. unfold generate_card. rewrite T. cbn [bind].
  destruct (first_pass bin H fuel card_length w)
    as (filler & d & w1 & _ & LC & G & Hn & Ln & V & K1).
  cbn zeta in *. set (n := (fst (bin_prefix bin card_length) ++ filler) ++ py_str d) in *.
  rewrite G. cbn [bind].
  rewrite <- K1 in C.
  destruct (generate_expiry_date_returns w1 C) as (mm & yyyy & E).
  set (w2 := mkworld (fun i => rand_tape w1 (S i)) (fun i => clock_tape w1 (S i))) in *.
  assert (K2 : clock_tape w2 = (fun i => clock_tape w1 (S i))) by reflexivity.
  clearbody w2.
  rewrite E. cbn [bind].
  pose proof (generate_cvv_clock n w2) as K3.
  destruct (generate_cvv n w2) as [code3 w3] eqn:CV. cbn [snd] in K3.
  exists (mkcard n mm yyyy code3), w3.
  split; [reflexivity |].
  split.
  { exists card_type, card_length, w, w1, w2, w3. cbn [number card_month card_year cvv].
    repeat split; assumption. }
  cbn [number]. repeat split; try assumption.
  - rewrite Ln.
    destruct (bin_prefix_digits bin H card_length) as (_ & _ & ->).
    destruct L as [-> | ->]; reflexivity.
  - rewrite K3, K2, K1. reflexivity.
Qed.

Lemma generate_cards_loop_runs fuel bin card_type card_length :
  all_ascii_digits bin = true ->
  detect_card_type bin = Ok (card_type, card_length) ->
  card_length = 15 \/ card_length = 16 ->
  forall iterations cards w,
    (forall i, expiry_representable (clock_tape w i)) ->
    exists more w',
      generate_cards_loop (S fuel) bin iterations cards w = Ok (cards ++ more, w')
      /\ List.length more = iterations
      /\ Forall (pipeline_record (S fuel) bin) more.
Proof.
  intros H T L. induction iterations as [|k IH]; intros cards w C.
  - exists [], w. rewrite app_nil_r. repeat split. constructor.
  - cbn [generate_cards_loop].
    destruct (generate_card_runs fuel bin w card_type card_length H T L (C 0%nat))
      as (c & w3 & G & P & _ & _ & _ & _ & K).
    rewrite G. cbn [bind].
    destruct (IH (cards ++ [c]) w3) as (more & w' & R & Le & Fa).
    { intros i. rewrite K. apply C. }
    exists (c :: more), w'. rewrite R, <- app_assoc. cbn [app List.length].
    repeat split; [now rewrite Le | now constructor].
Qed.

(** Whatever the input, a batch that is returned is complete. *)
Lemma generate_cards_loop_length fuel bin iterations :
  forall cards w out w',
    generate_cards_loop fuel bin iterations cards w = Ok (out, w') ->
    List.length out = (List.length cards + iterations)%nat.
Proof.
  induction iterations as [|k IH]; intros cards w out w' R; cbn [generate_cards_loop] in R.
  - injection R as <- _. lia.
  - destruct (generate_card fuel bin w) as [[c w1]| |]; cbn [bind] in R;
      try discriminate.
    apply IH in R. rewrite R, length_app. cbn [List.length]. lia.
Qed.

(** On a non-empty digit string the classifier returns, with 15 or 16. *)
Lemma detect_card_type_returns bin :
  bin <> [] -> all_ascii_digits bin = true ->
  exists card_type card_length,
    detect_card_type bin = Ok (card_type, card_length)
    /\ (card_length = 15 \/ card_length = 16).
Proof.
  intros NE H. unfold detect_card_type.
  rewrite (py_int_digit_string bin NE H). cbn [bind].
  destruct bin as [|c r]; [congruence |]. cbn [index0 bind].
  repeat match goal with
         | |- context [if ?b then _ else _] => destruct b
         end; eauto.
Qed.

(** C7: for every valid BIN (digits, of length 3, 4 or 6) and every
    [quantity] of at least 1, at clock readings to which 1800 days can be
    added, [generate_cards] returns a list of exactly [quantity] records,
    each made by the pipeline of [generate_card] on that BIN; and whatever
    the fuel and the world, a list it returns for that BIN and quantity has
    [quantity] records: no shorter batch is returned. *)
Theorem generate_cards_batch fuel bin quantity w :
  all_ascii_digits bin = true ->
  len bin = 3 \/ len bin = 4 \/ len bin = 6 ->
  1 <= quantity ->
  (forall i, expiry_representable (clock_tape w i)) ->
  exists cards w',
    generate_cards (S fuel) bin quantity w = Ok (cards, w')
    /\ Z.of_nat (List.length cards) = quantity
    /\ Forall (pipeline_record (S fuel) bin) cards
    /\ forall fuel0 w0 out w0',
         generate_cards fuel0 bin quantity w0 = Ok (out, w0') ->
         Z.of_nat (List.length out) = quantity.
Proof.
  intros H L Q C.
  assert (NE : bin <> []) by (intros ->; cbn in L; lia).
  destruct (detect_card_type_returns bin NE H) as (t & l & T & Tl).
  destruct (generate_cards_loop_runs fuel bin t l H T Tl (Z.to_nat quantity) [] w C)
    as (cards & w' & R & Le & Fa).
  exists cards, w'. unfold generate_cards.
  repeat split; try assumption; [lia |].
  intros fuel0 w0 out w0' R0.
  apply generate_cards_loop_length in R0. cbn [List.length] in R0. lia.
Qed.

Lemma generate_cards_batch_witness :
  exists cards w',
    generate_cards 1 (lit "4111") 3 (constant_world 5 (mkdate 2024 1 31))
    = Ok (cards, w')
    /\ Z.of_nat (List.length cards) = 3
    /\ Forall (pipeline_record 1 (lit "4111")) cards
    /\ forall fuel0 w0 out w0',
         generate_cards fuel0 (lit "4111") 3 w0 = Ok (out, w0') ->
         Z.of_nat (List.length out) = 3.
Proof.
  apply (generate_cards_batch 0 (lit "4111") 3
           (constant_world 5 (mkdate 2024 1 31))).
  - reflexivity.
  - right; left; reflexivity.
  - lia.
  - intros i. split; [reflexivity | cbn; lia].
Defined.

(** C10: a digit string of length 1, 2 or 5 is rejected by [validate_bin],
    yet [detect_card_type] classifies it by its first digit, and
    [generate_card], which does not consult the validator, returns (at a
    clock reading to which 1800 days can be added) a record whose number is
    made of digits, has the length of that classification and is
    Luhn-valid. *)
Theorem generate_card_ignores_validator fuel c r w :
  all_ascii_digits (c :: r) = true ->
  len (c :: r) = 1 \/ len (c :: r) = 2 \/ len (c :: r) = 5 ->
  expiry_representable (clock_tape w 0%nat) ->
  validate_bin (c :: r) = false
  /\ exists card_type card_length,
       detect_card_type (c :: r) = Ok (card_type, card_length)
       /\ (card_type, card_length)
          = (if Ascii.eqb c "4" then ("visa"%string, 16)
             else if Ascii.eqb c "3" then ("amex"%string, 15)
             else ("unknown"%string, 16))
       /\ exists record w',
            generate_card (S fuel) (c :: r) w = Ok (record, w')
            /\ all_ascii_digits (number record) = true
            /\ len (number record) = card_length
            /\ luhn_valid (number record)
            /\ luhn_check (number record) = Ok true.
Proof.
  intros H L C. split.
  { unfold validate_bin. destruct (isdigit (c :: r)); [| reflexivity].
    cbn [negb existsb].
    destruct (Z.eqb_spec (len (c :: r)) 3), (Z.eqb_spec (len (c :: r)) 4),
      (Z.eqb_spec (len (c :: r)) 6); reflexivity || lia. }
  pose proof (detect_card_type_short c r H ltac:(lia)) as T.
  set (cl := if Ascii.eqb c "4" then ("visa"%string, 16)
             else if Ascii.eqb c "3" then ("amex"%string, 15)
             else ("unknown"%string, 16)) in *.
  assert (Tl : snd cl = 15 \/ snd cl = 16).
  { subst cl. destruct (Ascii.eqb c "4"); [now right |].
    destruct (Ascii.eqb c "3"); [now left | now right]. }
  destruct cl as [t l]. cbn [snd] in Tl.
  exists t, l. split; [exact T |]. split; [reflexivity |].
  destruct (generate_card_runs fuel (c :: r) w t l H T Tl C)
    as (rec & w3 & G & _ & D & Ln & V & LC & _).
  exists rec, w3. repeat split; assumption.
Qed.

Lemma generate_card_ignores_validator_witness :
  validate_bin (lit "37123") = false
  /\ exists card_type card_length,
       detect_card_type (lit "37123") = Ok (card_type, card_length)
       /\ (card_type, card_length)
          = (if Ascii.eqb "3" "4" then ("visa"%string, 16)
             else if Ascii.eqb "3" "3" then ("amex"%string, 15)
             else ("unknown"%string, 16))
       /\ exists record w',
            generate_card 1 (lit "37123") (constant_world 5 (mkdate 2024 1 31))
            = Ok (record, w')
            /\ all_ascii_digits (number record) = true
            /\ len (number record) = card_length
            /\ luhn_valid (number record)
            /\ luhn_check (number record) = Ok true.
Proof.
  apply (generate_card_ignores_validator 0 "3"%char (lit "7123")
           (constant_world 5 (mkdate 2024 1 31))).
  - reflexivity.
  - right; right; reflexivity.
  - split; [reflexivity | cbn; lia].
Defined.

(** ** The validator *)

(** What [validate_bin] computes. *)
Lemma validate_bin_iff s :
  validate_bin s = true
  <-> isdigit s = true /\ (len s = 3 \/ len s = 4 \/ len s = 6).
Proof.
  unfold validate_bin. destruct (isdigit s); cbn [negb existsb].
  - destruct (Z.eqb_spec (len s) 3), (Z.eqb_spec (len s) 4),
      (Z.eqb_spec (len s) 6); cbn [orb]; intuition (try discriminate; lia).
  - intuition discriminate.
Qed.

(** On ASCII input the digits of [isdigit] are the decimal digits. *)
Lemma validate_bin_ascii s :
  Forall (fun c => code c < 128) s ->
  validate_bin s = true
  <-> all_ascii_digits s = true /\ (len s = 3 \/ len s = 4 \/ len s = 6).
Proof.
  intros A. rewrite validate_bin_iff.
  assert (E : forallb isdigit_char s = all_ascii_digits s).
  { induction A as [|c s Hc _ IH]; [reflexivity |].
    cbn [forallb all_ascii_digits]. fold (all_ascii_digits s). rewrite IH.
    f_equal. unfold isdigit_char.
    destruct (Z.eqb_spec (code c) 178), (Z.eqb_spec (code c) 179),
      (Z.eqb_spec (code c) 185); try lia.
    now rewrite !orb_false_r. }
  destruct s as [|c s]; [cbn; intuition lia |].
  unfold isdigit. rewrite E. reflexivity.
Qed.

(** C4, at U+00B2 U+00B3 U+00B9 (superscript two, three, one):
    [validate_bin] answers true on a string of length 3 none of whose
    characters is a decimal digit, and [detect_card_type], which the
    generation then calls, raises [ValueError] at [int(bin)]. *)
Theorem validate_bin_accepts_superscripts :
  validate_bin ["178"; "179"; "185"]%char = true
  /\ len ["178"; "179"; "185"]%char = 3
  /\ forallb (fun c => negb (is_ascii_digit c)) ["178"; "179"; "185"]%char = true
  /\ detect_card_type ["178"; "179"; "185"]%char = Raise ValueError
  /\ generate_cards 1 ["178"; "179"; "185"]%char 1
       (constant_world 0 (mkdate 2024 1 31)) = Raise ValueError.
Proof. repeat split; reflexivity. Qed.

(** * Further properties of [card_generator.py] *)

(** ** The checksum on arbitrary strings *)

Lemma py_int_non_digit c :
  is_ascii_digit c = false -> py_int [c] = Raise ValueError.
Proof. each_char c. Qed.

Lemma digits_of_non_digit_string s :
  all_ascii_digits s = false -> digits_of s = Raise ValueError.
Proof.
  unfold digits_of.
  induction s as [|c s IH]; intros H; [discriminate |].
  cbn [all_ascii_digits forallb] in H. fold (all_ascii_digits s) in H.
  cbn [mapM]. destruct (is_ascii_digit c) eqn:Hc.
  - rewrite (py_int_digit c Hc). cbn [bind]. cbn [andb] in H.
    now rewrite (IH H).
  - now rewrite (py_int_non_digit c Hc).
Qed.

Lemma luhn_checksum_non_digit_string s :
  all_ascii_digits s = false -> luhn_checksum s = Raise ValueError.
Proof.
  intros H. unfold luhn_checksum. now rewrite (digits_of_non_digit_string s H).
Qed.

Lemma luhn_check_digit_string s :
  all_ascii_digits s = true ->
  luhn_check s = Ok (luhn_total (digit_values s) mod 10 =? 0).
Proof.
  intros H. unfold luhn_check. now rewrite (luhn_checksum_digit_string s H).
Qed.

Lemma check_digit_non_digit_string p :
  all_ascii_digits p = false -> calculate_luhn_check_digit p = Raise ValueError.
Proof.
  intros H. unfold calculate_luhn_check_digit.
  rewrite range_10. cbn [check_digit_search].
  rewrite luhn_checksum_non_digit_string; [reflexivity |].
  rewrite all_ascii_digits_app, H. reflexivity.
Qed.

(** X1: on a string of ASCII characters [luhn_check] raises [ValueError]
    exactly when one of them is not a digit; when all are digits (the
    empty string included) it answers whether the Luhn total of the
    specification is 0 modulo 10. *)
Theorem luhn_check_on_ascii s :
  ascii_string s ->
  luhn_check s
  = if all_ascii_digits s then Ok (luhn_total (digit_values s) mod 10 =? 0)
    else Raise ValueError.
Proof.
  intros _. destruct (all_ascii_digits s) eqn:H.
  - now apply luhn_check_digit_string.
  - unfold luhn_check. now rewrite (luhn_checksum_non_digit_string s H).
Qed.

Lemma luhn_check_on_ascii_witness :
  luhn_check (lit "4111 1111")
  = if all_ascii_digits (lit "4111 1111")
    then Ok (luhn_total (digit_values (lit "4111 1111")) mod 10 =? 0)
    else Raise ValueError.
Proof.
  apply (luhn_check_on_ascii (lit "4111 1111")). repeat constructor.
Defined.

(** X2: on a string of ASCII characters [calculate_luhn_check_digit] raises
    [ValueError] exactly when one of them is not a digit, at the first
    candidate it tries; when all are digits it returns the digit of 0..9
    that is minus the weighted total of the string modulo 10. *)
Theorem calculate_luhn_check_digit_on_ascii p :
  ascii_string p ->
  calculate_luhn_check_digit p
  = if all_ascii_digits p
    then Ok ((- luhn_weighted false (rev (digit_values p))) mod 10)
    else Raise ValueError.
Proof.
  intros _.
  unfold calculate_luhn_check_digit. destruct (all_ascii_digits p) eqn:H.
  - now rewrite (search_result p H).
  - fold (calculate_luhn_check_digit p). now apply check_digit_non_digit_string.
Qed.

Lemma calculate_luhn_check_digit_on_ascii_witness :
  calculate_luhn_check_digit (lit "7992739871")
  = if all_ascii_digits (lit "7992739871")
    then Ok ((- luhn_weighted false (rev (digit_values (lit "7992739871")))) mod 10)
    else Raise ValueError.
Proof.
  apply (calculate_luhn_check_digit_on_ascii (lit "7992739871")).
  repeat constructor.
Defined.

(** ** What the checksum detects *)

Lemma luhn_weighted_app f l1 l2 :
  luhn_weighted f (l1 ++ l2)
  = luhn_weighted f l1
    + luhn_weighted (if Nat.even (List.length l1) then f else negb f) l2.
Proof.
  revert f; induction l1 as [|d l1 IH]; intros f; [reflexivity |].
  cbn [app luhn_weighted List.length]. rewrite IH, Nat.even_succ.
  rewrite <- Nat.negb_even.
  destruct (Nat.even (List.length l1)); cbn [negb]; rewrite ?negb_involutive; lia.
Qed.

(** The total of a string around one of its digits. *)
Lemma luhn_total_around a d b :
  luhn_total (a ++ d :: b)
  = luhn_weighted true (rev b)
    + luhn_term (Nat.even (List.length b)) d
    + luhn_weighted (negb (Nat.even (List.length b))) (rev a).
Proof.
  unfold luhn_total. rewrite rev_app_distr. cbn [rev]. rewrite <- app_assoc.
  rewrite luhn_weighted_app, length_rev. cbn [app luhn_weighted].
  unfold luhn_term. destruct (Nat.even (List.length b)); cbn [negb]; lia.
Qed.

Lemma luhn_term_injective_mod f d d' :
  0 <= d <= 9 -> 0 <= d' <= 9 ->
  (luhn_term f d - luhn_term f d') mod 10 = 0 -> d = d'.
Proof.
  intros B B' E. unfold luhn_term, luhn_double in E.
  destruct f, (Z.ltb_spec 9 (2 * d)), (Z.ltb_spec 9 (2 * d'));
    Z.div_mod_to_equations; lia.
Qed.

Lemma all_ascii_digits_middle a c b :
  all_ascii_digits (a ++ c :: b) = true ->
  all_ascii_digits a = true /\ is_ascii_digit c = true /\ all_ascii_digits b = true.
Proof.
  rewrite all_ascii_digits_app. cbn [all_ascii_digits forallb].
  fold (all_ascii_digits b). intros H.
  apply andb_true_iff in H as [Ha H]. apply andb_true_iff in H as [Hc Hb]. auto.
Qed.

Lemma digit_values_middle a c b :
  digit_values (a ++ c :: b) = digit_values a ++ (code c - 48) :: digit_values b.
Proof. unfold digit_values. now rewrite map_app. Qed.

Lemma digit_values_length s : List.length (digit_values s) = List.length s.
Proof. apply length_map. Qed.

Lemma digit_code_injective c c' :
  is_ascii_digit c = true -> code c - 48 = code c' - 48 -> c = c'.
Proof.
  intros _ E. unfold code in E.
  assert (N : N_of_ascii c = N_of_ascii c') by lia.
  rewrite <- (ascii_N_embedding c), <- (ascii_N_embedding c'). now rewrite N.
Qed.

(** X3: a Luhn-valid digit string in which one digit is replaced by another
    digit is rejected by [luhn_check]: every single-digit error is
    detected. *)
Theorem luhn_check_detects_substitution a c c' b :
  all_ascii_digits (a ++ c :: b) = true ->
  is_ascii_digit c' = true ->
  c <> c' ->
  luhn_check (a ++ c :: b) = Ok true ->
  luhn_check (a ++ c' :: b) = Ok false.
Proof.
  intros H Hc' NE V.
  destruct (all_ascii_digits_middle a c b H) as (Ha & Hc & Hb).
  assert (H' : all_ascii_digits (a ++ c' :: b) = true).
  { rewrite all_ascii_digits_app. cbn [all_ascii_digits forallb].
    fold (all_ascii_digits b). now rewrite Ha, Hc', Hb. }
  rewrite (luhn_check_digit_string _ H) in V. rewrite (luhn_check_digit_string _ H').
  injection V as V. apply Z.eqb_eq in V. f_equal. apply Z.eqb_neq. intros V'.
  rewrite digit_values_middle, luhn_total_around in V, V'.
  apply NE, (digit_code_injective c c' Hc).
  apply digit_code_bounds in Hc, Hc'.
  apply (luhn_term_injective_mod (Nat.even (List.length (digit_values b))));
    [lia | lia |].
  Z.div_mod_to_equations. lia.
Qed.

Lemma luhn_check_detects_substitution_witness :
  luhn_check (lit "411111111111" ++ "2"%char :: lit "111") = Ok false.
Proof.
  apply (luhn_check_detects_substitution (lit "411111111111") "1" "2" (lit "111"));
    [reflexivity | reflexivity | discriminate | reflexivity].
Defined.

Lemma luhn_swap_difference f x y :
  0 <= x <= 9 -> 0 <= y <= 9 ->
  ((luhn_term f y + luhn_term (negb f) x)
   - (luhn_term f x + luhn_term (negb f) y)) mod 10 = 0
  <-> x = y \/ (x = 0 /\ y = 9) \/ (x = 9 /\ y = 0).
Proof.
  intros B B'. unfold luhn_term, luhn_double.
  destruct f; cbn [negb]; destruct (Z.ltb_spec 9 (2 * x)), (Z.ltb_spec 9 (2 * y));
    split; intros E; Z.div_mod_to_equations; lia.
Qed.

(** X4: when two adjacent digits of a Luhn-valid digit string are exchanged,
    [luhn_check] still accepts the result exactly when the two digits are
    equal or are 0 and 9: every other adjacent transposition is detected,
    and the exchange of 0 and 9 never is. *)
Theorem luhn_check_adjacent_transposition a x y b :
  all_ascii_digits (a ++ x :: y :: b) = true ->
  luhn_check (a ++ x :: y :: b) = Ok true ->
  luhn_check (a ++ y :: x :: b)
  = Ok (Ascii.eqb x y
        || (Ascii.eqb x "0" && Ascii.eqb y "9")
        || (Ascii.eqb x "9" && Ascii.eqb y "0")).
Proof.
  intros H V.
  destruct (all_ascii_digits_middle a x (y :: b) H) as (Ha & Hx & Hyb).
  destruct (all_ascii_digits_middle [] y b Hyb) as (_ & Hy & Hb).
  assert (H' : all_ascii_digits (a ++ y :: x :: b) = true).
  { rewrite all_ascii_digits_app. cbn [all_ascii_digits forallb].
    fold (all_ascii_digits b). now rewrite Ha, Hx, Hy, Hb. }
  rewrite (luhn_check_digit_string _ H) in V. rewrite (luhn_check_digit_string _ H').
  injection V as V. apply Z.eqb_eq in V. f_equal.
  rewrite digit_values_middle in V |- *.
  change (digit_values (y :: b)) with ((code y - 48) :: digit_values b) in V.
  change (digit_values (x :: b)) with ((code x - 48) :: digit_values b).
  rewrite luhn_total_around in V |- *.
  cbn [rev List.length] in V |- *.
  rewrite luhn_weighted_app, length_rev in V |- *. cbn [luhn_weighted] in V |- *.
  rewrite Nat.even_succ, <- Nat.negb_even in V |- *.
  set (e := Nat.even (List.length (digit_values b))) in *.
  set (R := luhn_weighted true (rev (digit_values b))) in *.
  set (A := luhn_weighted (negb (negb e)) (rev (digit_values a))) in *.
  pose proof (digit_code_bounds x Hx) as Bx.
  pose proof (digit_code_bounds y Hy) as By.
  pose proof (luhn_swap_difference e (code x - 48) (code y - 48)
                ltac:(lia) ltac:(lia)) as S.
  assert (T : forall (f : bool) (d : Z),
             (if f then d else luhn_double d) = luhn_term f d) by reflexivity.
  rewrite !T in V |- *. rewrite Z.add_0_r in V |- *.
  assert (Ex : forall k, Ascii.eqb x k = (code x - 48 =? code k - 48)).
  { intros k. destruct (Ascii.eqb_spec x k) as [-> | N].
    - symmetry. apply Z.eqb_refl.
    - symmetry. apply Z.eqb_neq. intros E. apply N.
      now apply digit_code_injective. }
  assert (Ey : forall k, Ascii.eqb y k = (code y - 48 =? code k - 48)).
  { intros k. destruct (Ascii.eqb_spec y k) as [-> | N].
    - symmetry. apply Z.eqb_refl.
    - symmetry. apply Z.eqb_neq. intros E. apply N.
      now apply digit_code_injective. }
  rewrite (Ex y), (Ex "0"%char), (Ex "9"%char), (Ey "0"%char), (Ey "9"%char).
  change (code "0" - 48) with 0. change (code "9" - 48) with 9.
  assert (Ee : (if e then true else negb true) = e) by (destruct e; reflexivity).
  rewrite Ee in V |- *.
  generalize dependent (luhn_term e (code y - 48)).
  generalize dependent (luhn_term (negb e) (code x - 48)).
  generalize dependent (luhn_term e (code x - 48)).
  generalize dependent (luhn_term (negb e) (code y - 48)).
  intros t1 t2 t3 t4 V S.
  destruct (Z.eqb_spec ((R + t2 + t1 + A) mod 10) 0) as [G|G].
  - assert (D : code x - 48 = code y - 48
                \/ code x - 48 = 0 /\ code y - 48 = 9
                \/ code x - 48 = 9 /\ code y - 48 = 0).
    { apply S. Z.div_mod_to_equations. lia. }
    lia.
  - assert (D : ~ (code x - 48 = code y - 48
                   \/ code x - 48 = 0 /\ code y - 48 = 9
                   \/ code x - 48 = 9 /\ code y - 48 = 0)).
    { intros D. apply S in D. apply G. Z.div_mod_to_equations. lia. }
    lia.
Qed.

Lemma luhn_check_adjacent_transposition_witness :
  luhn_check ([] ++ "1"%char :: "4"%char :: lit "11111111111111")
  = Ok (Ascii.eqb "4" "1"
        || (Ascii.eqb "4" "0" && Ascii.eqb "1" "9")
        || (Ascii.eqb "4" "9" && Ascii.eqb "1" "0")).
Proof.
  apply (luhn_check_adjacent_transposition [] "4" "1" (lit "11111111111111"));
    reflexivity.
Defined.

(** ** [generate_card_number] on arbitrary arguments *)

Lemma len_repeat (c : ascii) n : len (repeat c n) = Z.of_nat n.
Proof. unfold len. now rewrite repeat_length. Qed.

(** The prefix kept from any string has at most 6 characters, and taking
    the prefix of the prefix changes nothing. *)
Lemma bin_prefix_shape bin card_length :
  snd (bin_prefix bin card_length) = (if card_length =? 15 then 14 else 15)
  /\ len (fst (bin_prefix bin card_length)) <= 6
  /\ bin_prefix (fst (bin_prefix bin card_length)) card_length
     = bin_prefix bin card_length.
Proof.
  unfold bin_prefix, slice_to, ljust.
  destruct (card_length =? 15); cbn [fst snd].
  - destruct (Z.leb_spec 4 (len bin)) as [L|L].
    + rewrite len_firstn.
      destruct (Z.leb_spec 4 (Z.min (Z.of_nat (Z.to_nat 4)) (len bin))); [| lia].
      rewrite firstn_firstn. repeat split; lia.
    + rewrite len_app, len_repeat.
      destruct (Z.leb_spec 4 (len bin + Z.of_nat (Z.to_nat (4 - len bin)))); [| lia].
      rewrite firstn_all2; [repeat split; lia |].
      rewrite length_app, repeat_length. unfold len in *. lia.
  - destruct (Z.leb_spec 6 (len bin)) as [L6|L6].
    + rewrite len_firstn.
      destruct (Z.leb_spec 6 (Z.min (Z.of_nat (Z.to_nat 6)) (len bin))); [| lia].
      rewrite firstn_firstn. repeat split; lia.
    + destruct (Z.leb_spec 4 (len bin)) as [L4|L4].
      * rewrite len_firstn.
        destruct (Z.leb_spec 6 (Z.min (Z.of_nat (Z.to_nat 4)) (len bin))); [lia |].
        destruct (Z.leb_spec 4 (Z.min (Z.of_nat (Z.to_nat 4)) (len bin))); [| lia].
        rewrite firstn_firstn. repeat split; lia.
      * destruct (Z.eqb_spec (len bin) 3) as [L3|L3].
        -- rewrite len_firstn.
           destruct (Z.leb_spec 6 (Z.min (Z.of_nat (Z.to_nat 3)) (len bin))); [lia |].
           destruct (Z.leb_spec 4 (Z.min (Z.of_nat (Z.to_nat 3)) (len bin))); [lia |].
           destruct (Z.eqb_spec (Z.min (Z.of_nat (Z.to_nat 3)) (len bin)) 3); [| lia].
           rewrite firstn_firstn. repeat split; lia.
        -- destruct (Z.leb_spec 6 (len bin)); [lia |].
           destruct (Z.leb_spec 4 (len bin)); [lia |].
           destruct (Z.eqb_spec (len bin) 3); [lia |].
           repeat split; lia.
Qed.

Lemma candidate_of_prefix bin card_length w :
  card_number_candidate bin card_length w
  = card_number_candidate (fst (bin_prefix bin card_length)) card_length w.
Proof.
  unfold card_number_candidate.
  now rewrite (proj2 (proj2 (bin_prefix_shape bin card_length))).
Qed.

(** The number depends on the BIN through the kept prefix alone. *)
Lemma generate_card_number_of_prefix fuel bin card_length :
  forall w,
    generate_card_number fuel bin card_length w
    = generate_card_number fuel (fst (bin_prefix bin card_length)) card_length w.
Proof.
  induction fuel as [|fuel IH]; intros w; [reflexivity |].
  cbn [generate_card_number]. rewrite <- candidate_of_prefix.
  destruct (card_number_candidate bin card_length w) as [[n w1]| |];
    cbn [bind]; try reflexivity.
  destruct (luhn_check n) as [[]| |]; cbn [bind negb]; try reflexivity.
  apply IH.
Qed.

Lemma candidate_non_digit_prefix bin card_length w :
  all_ascii_digits (fst (bin_prefix bin card_length)) = false ->
  card_number_candidate bin card_length w = Raise ValueError.
Proof.
  intros H. unfold card_number_candidate.
  destruct (bin_prefix_shape bin card_length) as (Hn & Lp & _).
  destruct (bin_prefix bin card_length) as [prefix digits_before_check].
  cbn [fst snd] in *.
  assert (R : (0 <? digits_before_check - len prefix) = true).
  { apply Z.ltb_lt. destruct (card_length =? 15); lia. }
  rewrite R. destruct (random_part _ w) as [r w1].
  rewrite check_digit_non_digit_string; [reflexivity |].
  now rewrite all_ascii_digits_app, H.
Qed.

(** X5: for every string [bin] of ASCII characters, every [card_length]
    and every world, [generate_card_number] returns in its first pass or
    raises: if the prefix it keeps from [bin] is made of digits it returns
    a Luhn-valid digit string that starts with that prefix and has 15
    characters when [card_length] is 15 and 16 for every other value of
    [card_length]; otherwise it raises [ValueError].  What follows the kept
    prefix in [bin] does not decide between the two. *)
Theorem generate_card_number_on_ascii fuel bin card_length w :
  ascii_string bin ->
  if all_ascii_digits (fst (bin_prefix bin card_length)) then
    exists card_number w1,
      generate_card_number (S fuel) bin card_length w = Ok (card_number, w1)
      /\ all_ascii_digits card_number = true
      /\ len card_number = (if card_length =? 15 then 15 else 16)
      /\ luhn_valid card_number
      /\ startswith (fst (bin_prefix bin card_length)) card_number = true
  else generate_card_number (S fuel) bin card_length w = Raise ValueError.
Proof.
  intros _.
  destruct (bin_prefix_shape bin card_length) as (Hn & _ & Id).
  destruct (all_ascii_digits (fst (bin_prefix bin card_length))) eqn:H.
  - destruct (first_pass _ H fuel card_length w)
      as (filler & d & w1 & _ & _ & G & Hd & Ln & V & _).
    cbn zeta in *. rewrite Id in *.
    rewrite <- generate_card_number_of_prefix in G.
    eexists; exists w1. split; [exact G |].
    repeat split; try assumption.
    + rewrite Ln, Hn. destruct (card_length =? 15); reflexivity.
    + apply startswith_app_assoc.
  - cbn [generate_card_number].
    now rewrite (candidate_non_digit_prefix bin card_length w H).
Qed.

Lemma generate_card_number_on_ascii_witness :
  generate_card_number 1 (lit "41x1") 19 (constant_world 0 (mkdate 2024 1 31))
  = Raise ValueError.
Proof.
  apply (generate_card_number_on_ascii 0 (lit "41x1") 19
           (constant_world 0 (mkdate 2024 1 31))).
  repeat constructor.
Defined.

(** ** Every valid number with the prefix can be generated *)

Lemma py_str_of_digit_char c :
  is_ascii_digit c = true -> py_str (code c - 48) = [c].
Proof. each_char c. Qed.

Lemma random_part_replay r :
  all_ascii_digits r = true ->
  forall w,
    (forall i, (i < List.length r)%nat ->
               rand_tape w i = nth i (digit_values r) 0) ->
    fst (random_part (List.length r) w) = r.
Proof.
  induction r as [|c r IH]; intros H w T; [reflexivity |].
  apply andb_true_iff in H as [Hc Hr].
  cbn [List.length random_part]. unfold randint.
  rewrite (T 0%nat) by (cbn; lia). cbn [digit_values map nth].
  pose proof (digit_code_bounds c Hc) as B.
  replace (0 + (code c - 48) mod (9 - 0 + 1)) with (code c - 48)
    by (Z.div_mod_to_equations; lia).
  rewrite (py_str_of_digit_char c Hc).
  specialize (IH Hr (mkworld (fun i => rand_tape w (S i)) (clock_tape w))).
  destruct (random_part (List.length r) _) as [r' w2]. cbn [fst] in *.
  rewrite IH; [reflexivity |].
  intros i Hi. cbn [rand_tape]. rewrite (T (S i)) by (cbn; lia). reflexivity.
Qed.

Lemma startswith_split p s : startswith p s = true -> exists rest, s = p ++ rest.
Proof.
  revert s; induction p as [|a p IH]; intros s H; [now exists s |].
  destruct s as [|b s]; [discriminate |]. cbn [startswith] in H.
  apply andb_true_iff in H as [E H]. apply Ascii.eqb_eq in E as ->.
  destruct (IH s H) as [rest ->]. now exists rest.
Qed.

(** X6: every Luhn-valid digit string of the length [generate_card_number]
    produces that starts with the prefix kept from the BIN is returned for
    some random source: no valid number with that prefix is out of reach. *)
Theorem generate_card_number_reaches bin card_length card_number clock :
  all_ascii_digits card_number = true ->
  luhn_valid card_number ->
  len card_number = (if card_length =? 15 then 15 else 16) ->
  startswith (fst (bin_prefix bin card_length)) card_number = true ->
  exists tape w1,
    generate_card_number 1 bin card_length (mkworld tape clock)
    = Ok (card_number, w1).
Proof.
  intros H V L S.
  destruct (bin_prefix_shape bin card_length) as (Hn & Lp & _).
  destruct (startswith_split _ _ S) as [rest E].
  assert (NE : rest <> []).
  { intros ->. rewrite app_nil_r in E. rewrite E in L.
    destruct (card_length =? 15); lia. }
  destruct (exists_last NE) as (filler & last & ->).
  set (prefix := fst (bin_prefix bin card_length)) in *.
  rewrite E in H. rewrite app_assoc in H, E.
  destruct (all_ascii_digits_middle (prefix ++ filler) last [] H) as (Hpf & Hl & _).
  rewrite all_ascii_digits_app in Hpf. apply andb_true_iff in Hpf as [Hp Hf].
  assert (Lf : len filler = snd (bin_prefix bin card_length) - len prefix).
  { rewrite E, !len_app in L. change (len [last]) with 1 in L.
    rewrite Hn. destruct (card_length =? 15); lia. }
  exists (fun i => nth i (digit_values filler) 0).
  pose proof (random_part_replay filler Hf
                (mkworld (fun i => nth i (digit_values filler) 0) clock)
                ltac:(reflexivity)) as RP.
  cbn [generate_card_number]. unfold card_number_candidate.
  subst prefix. destruct (bin_prefix bin card_length) as [p dbc] eqn:BP.
  cbn [fst snd] in *.
  assert (R : (0 <? dbc - len p) = true).
  { apply Z.ltb_lt. destruct (card_length =? 15); lia. }
  rewrite R. replace (Z.to_nat (dbc - len p)) with (List.length filler)
    by (rewrite <- Lf; unfold len; lia).
  destruct (random_part (List.length filler) _) as [r w1]. cbn [fst] in RP.
  subst r. exists w1.
  assert (Hpart : all_ascii_digits (p ++ filler) = true)
    by now rewrite all_ascii_digits_app, Hp, Hf.
  unfold calculate_luhn_check_digit. rewrite (search_result _ Hpart). cbn [bind].
  assert (D : (- luhn_weighted false (rev (digit_values (p ++ filler)))) mod 10
              = code last - 48).
  { unfold luhn_valid in V. rewrite E, digit_values_app in V.
    change (digit_values [last]) with [code last - 48] in V.
    rewrite luhn_total_snoc in V.
    pose proof (digit_code_bounds last Hl). Z.div_mod_to_equations. lia. }
  rewrite D, (py_str_of_digit_char last Hl), <- E.
  rewrite luhn_check_digit_string by (now rewrite E).
  cbn [bind]. unfold luhn_valid in V. rewrite V. reflexivity.
Qed.

Lemma generate_card_number_reaches_witness :
  exists tape w1,
    generate_card_number 1 (lit "411111") 16
      (mkworld tape (fun _ => mkdate 2024 1 31))
    = Ok (lit "4111111111111111", w1).
Proof.
  apply (generate_card_number_reaches (lit "411111") 16 (lit "4111111111111111"));
    reflexivity.
Defined.

(** ** The expiry date is at least five months away *)

Lemma five_months_same_year l m m' :
  1 <= m -> m <= m' -> m' <= m + 4 -> m' <= 12 ->
  days_through_month l m'
  <= DAYS_BEFORE_MONTH m + (if (2 <? m) && l then 1 else 0) + 153.
Proof.
  intros H1 H2 H3 H4.
  assert (H : 1 <= m <= 12) by lia. assert (H' : 1 <= m' <= 12) by lia.
  each_month m H; each_month m' H'; try lia; destruct l; cbv; congruence.
Qed.

Lemma five_months_over_new_year (l l' : bool) m m' :
  m <= 12 -> 1 <= m' -> m' + 8 <= m ->
  365 + (if l then 1 else 0) + days_through_month l' m'
  <= DAYS_BEFORE_MONTH m + (if (2 <? m) && l then 1 else 0) + 153.
Proof.
  intros H1 H2 H3.
  assert (H : 1 <= m <= 12) by lia. assert (H' : 1 <= m' <= 12) by lia.
  each_month m H; each_month m' H'; try lia; destruct l, l'; cbv; congruence.
Qed.

(** A date at most four months later is at most 152 days later. *)
Lemma four_months_152_days a b :
  month_and_day a -> month_and_day b ->
  month_index b <= month_index a + 4 -> ymd2ord b <= ymd2ord a + 152.
Proof.
  intros Va Vb I. unfold month_index in I.
  destruct (ymd2ord_bounds b Vb) as (_ & Hb & Hb').
  pose proof Va as [Ma Da]. pose proof Vb as [Mb Db].
  assert (Sa : days_before_year (year a)
               + (DAYS_BEFORE_MONTH (month a)
                  + (if (2 <? month a) && is_leap (year a) then 1 else 0)) + 1
               <= ymd2ord a).
  { unfold ymd2ord, days_before_month. lia. }
  destruct (Z.lt_trichotomy (year b) (year a)) as [Y | [Y | Y]].
  - pose proof (days_before_year_mono (year b + 1) (year a) ltac:(lia)).
    pose proof (days_before_month_nonneg (is_leap (year a)) (month a) Ma). lia.
  - destruct (Z.lt_ge_cases (month b) (month a)) as [Mlt | Mge].
    + pose proof (earlier_month_earlier_day b a Vb Va
                    ltac:(unfold month_index; lia)). lia.
    + pose proof (five_months_same_year (is_leap (year b)) (month a) (month b)
                    ltac:(lia) ltac:(lia) ltac:(lia) ltac:(lia)) as T.
      rewrite Y in *. lia.
  - assert (Yb : year b = year a + 1) by lia.
    pose proof (five_months_over_new_year (is_leap (year a)) (is_leap (year b))
                  (month a) (month b) ltac:(lia) ltac:(lia) ltac:(lia)) as T.
    pose proof (days_before_year_succ (year a)) as Su.
    rewrite Yb in *. lia.
Qed.

(** What [generate_expiry_date] returns at a reading [now] of the clock
    when it drew [m]. *)
Lemma expiry_date_facts now m :
  clock_reading_ok now -> 6 <= m <= 60 ->
  exists expiry,
    add_days now (m * 30) = Ok expiry
    /\ len (zfill 2 (py_str (month expiry))) = 2
    /\ all_ascii_digits (zfill 2 (py_str (month expiry))) = true
    /\ len (py_str (year expiry)) = 4
    /\ all_ascii_digits (py_str (year expiry)) = true
    /\ month_index now + 5 <= month_index expiry <= month_index now + 60.
Proof.
  intros [V Y] B.
  destruct (ordinal_in_range now (m * 30) V ltac:(lia) ltac:(lia)) as [M R].
  destruct (month_after_days now (m * 30) M ltac:(lia)) as [Mo I].
  cbv zeta in Mo, I.
  destruct (ord2ymd_ymd2ord (ymd2ord now + m * 30)) as [Ve Oe].
  exists (ord2ymd (ymd2ord now + m * 30)).
  assert (A : add_days now (m * 30) = Ok (ord2ymd (ymd2ord now + m * 30))).
  { unfold add_days.
    destruct (Z.ltb_spec 0 (ymd2ord now + m * 30)); [| lia].
    destruct (Z.leb_spec (ymd2ord now + m * 30) MAXORDINAL); [| lia].
    reflexivity. }
  assert (Five : month_index now + 5
                 <= month_index (ord2ymd (ymd2ord now + m * 30))).
  { destruct (Z.le_gt_cases (month_index now + 5)
                (month_index (ord2ymd (ymd2ord now + m * 30)))) as [|G];
      [assumption |].
    pose proof (four_months_152_days now _ M Ve ltac:(lia)). lia. }
  generalize dependent (ord2ymd (ymd2ord now + m * 30)).
  intros expiry Mo I Ve Oe A Five.
  destruct (month_numerals (month expiry) Mo) as (D2 & V2 & L2).
  assert (Ye : 1000 <= year expiry <= 9999).
  { unfold month_index in I. destruct M as [Mn _]. lia. }
  destruct (numerals_100_9999 (year expiry) ltac:(lia)) as (D4 & V4 & L4).
  destruct (Z.ltb_spec (year expiry) 1000); [lia |].
  repeat split; try assumption; lia.
Qed.

(** X7: the month of the expiry date [generate_expiry_date] returns is at
    least 5 months after the month the clock reads (and at most 60): a
    generated card is never expired, nor about to expire within four
    months.  The source comments "between 6 months and 5 years"; 180 days
    after the first of March fall in August, 5 months later. *)
Theorem expiry_at_least_five_months_ahead w :
  clock_reading_ok (clock_tape w 0%nat) ->
  exists expiry mm yyyy w1,
    generate_expiry_date w = Ok ((mm, yyyy), w1)
    /\ mm = zfill 2 (py_str (month expiry))
    /\ yyyy = py_str (year expiry)
    /\ month_index (clock_tape w 0%nat) + 5 <= month_index expiry.
Proof.
  intros C.
  pose proof (randint_bounds 6 60 w ltac:(lia)) as B.
  destruct (expiry_date_facts _ _ C B) as (expiry & A & _ & _ & _ & _ & Five & _).
  rewrite generate_expiry_date_steps, A. cbn [bind].
  exists expiry. do 3 eexists. repeat split. exact Five.
Qed.

Lemma expiry_at_least_five_months_ahead_witness :
  exists expiry mm yyyy w1,
    generate_expiry_date (constant_world 0 (mkdate 2024 3 1)) = Ok ((mm, yyyy), w1)
    /\ mm = zfill 2 (py_str (month expiry))
    /\ yyyy = py_str (year expiry)
    /\ month_index (mkdate 2024 3 1) + 5 <= month_index expiry.
Proof.
  apply (expiry_at_least_five_months_ahead (constant_world 0 (mkdate 2024 3 1))).
  split; [reflexivity | cbn; lia].
Defined.

(** The bound of 5 months is reached: 2024-03-01 plus 180 days is in
    August 2024. *)
Example expiry_five_months_later :
  value (generate_expiry_date (constant_world 0 (mkdate 2024 3 1)))
  = Some (lit "08", lit "2024").
Proof. reflexivity. Qed.

(** ** Records and batches *)

Lemma generate_cvv_shape card_number w :
  all_ascii_digits (fst (generate_cvv card_number w)) = true
  /\ len (fst (generate_cvv card_number w))
     = (if len card_number =? 15 then 4 else 3).
Proof.
  unfold generate_cvv. destruct (len card_number =? 15).
  - pose proof (randint_bounds 1000 9999 w ltac:(lia)) as B.
    destruct (randint 1000 9999 w) as [n w1]. cbn [fst] in *.
    destruct (numerals_100_9999 n ltac:(lia)) as (D & _ & L).
    destruct (Z.ltb_spec n 1000); [lia |]. now split.
  - pose proof (randint_bounds 100 999 w ltac:(lia)) as B.
    destruct (randint 100 999 w) as [n w1]. cbn [fst] in *.
    destruct (numerals_100_9999 n ltac:(lia)) as (D & _ & L).
    destruct (Z.ltb_spec n 1000); [| lia]. now split.
Qed.

(** One record, with all its fields. *)
Lemma generate_card_shape fuel bin w card_type card_length :
  all_ascii_digits bin = true ->
  detect_card_type bin = Ok (card_type, card_length) ->
  card_length = 15 \/ card_length = 16 ->
  clock_reading_ok (clock_tape w 0%nat) ->
  exists c w3,
    generate_card (S fuel) bin w = Ok (c, w3)
    /\ record_shape bin card_length c
    /\ clock_tape w3 = (fun i => clock_tape w (S i)).
Proof.
  intros H T L C. unfold generate_card. rewrite T. cbn [bind].
  destruct (first_pass bin H fuel card_length w)
    as (filler & d & w1 & _ & _ & G & Hn & Ln & V & K1).
  cbn zeta in *.
  assert (St : startswith (fst (bin_prefix bin card_length))
                 ((fst (bin_prefix bin card_length) ++ filler) ++ py_str d) = true)
    by apply startswith_app_assoc.
  set (n := (fst (bin_prefix bin card_length) ++ filler) ++ py_str d) in *.
  rewrite G. cbn [bind]. rewrite <- K1 in C.
  pose proof (randint_bounds 6 60 w1 ltac:(lia)) as B.
  destruct (expiry_date_facts _ _ C B) as (e & A & L2 & D2 & L4 & D4 & _).
  rewrite generate_expiry_date_steps, A. cbn [bind].
  set (w2 := mkworld (fun i => rand_tape w1 (S i)) (fun i => clock_tape w1 (S i))).
  destruct (generate_cvv_shape n w2) as [Dc Lc].
  pose proof (generate_cvv_clock n w2) as K3.
  destruct (generate_cvv n w2) as [code3 w3]. cbn [fst snd] in *.
  eexists; exists w3. split; [reflexivity |]. split.
  - unfold record_shape. cbn [number card_month card_year cvv].
    repeat split; try assumption.
    rewrite Ln. destruct (bin_prefix_digits bin H card_length) as (_ & _ & ->).
    destruct L as [-> | ->]; reflexivity.
  - rewrite K3. subst w2. cbn [clock_tape]. now rewrite K1.
Qed.

(** A property every record has, every record of a batch has. *)
Lemma generate_cards_loop_all fuel bin (P : card -> Prop) :
  (forall w, clock_reading_ok (clock_tape w 0%nat) ->
     exists c w3,
       generate_card fuel bin w = Ok (c, w3) /\ P c
       /\ clock_tape w3 = (fun i => clock_tape w (S i))) ->
  forall iterations cards w,
    (forall i, clock_reading_ok (clock_tape w i)) ->
    exists more w',
      generate_cards_loop fuel bin iterations cards w = Ok (cards ++ more, w')
      /\ List.length more = iterations
      /\ Forall P more.
Proof.
  intros One. induction iterations as [|k IH]; intros cards w C.
  - exists [], w. rewrite app_nil_r. repeat split. constructor.
  - cbn [generate_cards_loop].
    destruct (One w (C 0%nat)) as (c & w3 & G & Pc & K).
    rewrite G. cbn [bind].
    destruct (IH (cards ++ [c]) w3) as (more & w' & R & Le & Fa).
    { intros i. rewrite K. apply C. }
    exists (c :: more), w'. rewrite R, <- app_assoc. cbn [app List.length].
    repeat split; [now rewrite Le | now constructor].
Qed.

(** X8: every record of a batch made for a non-empty digit BIN of at most
    4300 digits (beyond which [int(bin)] refuses the conversion) has the
    same shape: a Luhn-valid number of the classified length (15 or 16
    digits) that starts with the prefix kept from the BIN, a month of two
    digits, a year of four, and a CVV of 4 digits beside a 15-digit number
    and of 3 beside a 16-digit one. *)
Theorem generate_cards_record_shape fuel bin quantity w :
  bin <> [] ->
  len bin <= 4300 ->
  all_ascii_digits bin = true ->
  (forall i, clock_reading_ok (clock_tape w i)) ->
  exists card_type card_length cards w',
    detect_card_type bin = Ok (card_type, card_length)
    /\ (card_length = 15 \/ card_length = 16)
    /\ generate_cards (S fuel) bin quantity w = Ok (cards, w')
    /\ List.length cards = Z.to_nat quantity
    /\ Forall (record_shape bin card_length) cards.
Proof.
  intros NE _ H C.
  destruct (detect_card_type_returns bin NE H) as (t & l & T & Tl).
  destruct (generate_cards_loop_all (S fuel) bin (record_shape bin l)
              (fun w0 C0 => generate_card_shape fuel bin w0 t l H T Tl C0)
              (Z.to_nat quantity) [] w C) as (cards & w' & R & Le & Fa).
  exists t, l, cards, w'. repeat split; assumption.
Qed.

Lemma generate_cards_record_shape_witness :
  exists card_type card_length cards w',
    detect_card_type (lit "371") = Ok (card_type, card_length)
    /\ (card_length = 15 \/ card_length = 16)
    /\ generate_cards 1 (lit "371") 2 (constant_world 8 (mkdate 2024 1 31))
       = Ok (cards, w')
    /\ List.length cards = Z.to_nat 2
    /\ Forall (record_shape (lit "371") card_length) cards.
Proof.
  apply (generate_cards_record_shape 0 (lit "371") 2
           (constant_world 8 (mkdate 2024 1 31))).
  - discriminate.
  - cbn. lia.
  - reflexivity.
  - intros i. split; [reflexivity | cbn; lia].
Defined.

(** The prefix kept from a valid BIN starts with the BIN, unless the BIN
    has 6 digits and the length is 15. *)
Lemma bin_prefix_keeps_bin bin card_length :
  len bin = 3 \/ len bin = 4 \/ len bin = 6 ->
  len bin <= 4 \/ card_length <> 15 ->
  exists padding, fst (bin_prefix bin card_length) = bin ++ padding.
Proof.
  intros L K. unfold bin_prefix, slice_to, ljust.
  assert (F : forall n, (List.length bin <= n)%nat -> firstn n bin = bin ++ []).
  { intros n Hn. rewrite app_nil_r. now apply firstn_all2. }
  destruct (Z.eqb_spec card_length 15) as [E|E]; cbn [fst].
  - destruct (Z.leb_spec 4 (len bin)).
    + exists []. apply F. unfold len in *. lia.
    + eexists. reflexivity.
  - destruct (Z.leb_spec 6 (len bin)); [exists []; apply F; unfold len in *; lia |].
    destruct (Z.leb_spec 4 (len bin)); [exists []; apply F; unfold len in *; lia |].
    destruct (Z.eqb_spec (len bin) 3); [exists []; apply F; unfold len in *; lia |].
    exists []. now rewrite app_nil_r.
Qed.

(** X9: for a valid BIN (digits, of length 3, 4 or 6) that is not a 6-digit
    BIN classified amex, the number of every record of a batch starts with
    the BIN itself. *)
Theorem generate_cards_numbers_start_with_bin fuel bin quantity w card_type card_length :
  all_ascii_digits bin = true ->
  len bin = 3 \/ len bin = 4 \/ len bin = 6 ->
  detect_card_type bin = Ok (card_type, card_length) ->
  len bin <= 4 \/ card_length <> 15 ->
  (forall i, clock_reading_ok (clock_tape w i)) ->
  exists cards w',
    generate_cards (S fuel) bin quantity w = Ok (cards, w')
    /\ List.length cards = Z.to_nat quantity
    /\ Forall (fun c => startswith bin (number c) = true) cards.
Proof.
  intros H L T K C.
  assert (NE : bin <> []) by (intros ->; cbn in L; lia).
  destruct (detect_card_type_returns bin NE H) as (t & l & T' & Tl).
  rewrite T in T'. injection T' as <- <-.
  destruct (bin_prefix_keeps_bin bin card_length L K) as [padding Pk].
  destruct (generate_cards_loop_all (S fuel) bin
              (fun c => startswith bin (number c) = true)) with
    (iterations := Z.to_nat quantity) (cards := @nil card) (w := w)
    as (cards & w' & R & Le & Fa).
  - intros w0 C0.
    destruct (generate_card_shape fuel bin w0 card_type card_length H T Tl C0)
      as (c & w3 & G & Sh & Kc).
    exists c, w3. repeat split; try assumption.
    destruct Sh as (_ & _ & _ & St & _). rewrite Pk in St.
    now apply startswith_app_left in St.
  - exact C.
  - exists cards, w'. repeat split; assumption.
Qed.

Lemma generate_cards_numbers_start_with_bin_witness :
  exists cards w',
    generate_cards 1 (lit "510000") 2 (constant_world 8 (mkdate 2024 1 31))
    = Ok (cards, w')
    /\ List.length cards = Z.to_nat 2
    /\ Forall (fun c => startswith (lit "510000") (number c) = true) cards.
Proof.
  apply (generate_cards_numbers_start_with_bin 0 (lit "510000") 2
           (constant_world 8 (mkdate 2024 1 31)) "mastercard"%string 16).
  - reflexivity.
  - right; right; reflexivity.
  - reflexivity.
  - right; discriminate.
  - intros i. split; [reflexivity | cbn; lia].
Defined.

(** ** A 6-digit amex BIN keeps four digits only *)

(** The number of the first pass, with the digits it drew. *)
Lemma generate_card_number_explicit fuel bin card_length w :
  all_ascii_digits bin = true ->
  let prefix := fst (bin_prefix bin card_length) in
  let drawn :=
    random_part (Z.to_nat (snd (bin_prefix bin card_length) - len prefix)) w in
  exists check_digit,
    generate_card_number (S fuel) bin card_length w
    = Ok ((prefix ++ fst drawn) ++ py_str check_digit, snd drawn).
Proof.
  intros H prefix drawn. subst prefix drawn.
  cbn [generate_card_number]. unfold card_number_candidate.
  destruct (bin_prefix_digits bin H card_length) as (Hp & Lp & Hn).
  destruct (bin_prefix bin card_length) as [prefix dbc]. cbn [fst snd] in *.
  assert (R : (0 <? dbc - len prefix) = true).
  { apply Z.ltb_lt. destruct (card_length =? 15); lia. }
  rewrite R.
  pose proof (random_part_digits (Z.to_nat (dbc - len prefix)) w) as (Hr & _ & _).
  destruct (random_part _ w) as [r w1]. cbn [fst snd] in *.
  assert (Hpart : all_ascii_digits (prefix ++ r) = true)
    by now rewrite all_ascii_digits_app, Hp, Hr.
  destruct (luhn_valid_with_check_digit _ Hpart) as (_ & Hd & _ & _ & K).
  cbn zeta in *.
  unfold calculate_luhn_check_digit. rewrite (search_result _ Hpart). cbn [bind].
  unfold luhn_check. rewrite K. cbn [bind Z.eqb negb].
  eexists. reflexivity.
Qed.

Lemma random_part_first k w :
  fst (random_part (S k) w)
  = py_str (0 + rand_tape w 0%nat mod 10)
    ++ fst (random_part k (snd (randint 0 9 w))).
Proof.
  cbn [random_part]. unfold randint at 1. cbn [snd].
  destruct (random_part k _) as [r w2]. reflexivity.
Qed.

(** X10: for every 6-digit BIN classified amex only the first four digits
    reach the number: for every random source a record is returned and its
    number starts with them, and for some random source the number does
    not start with the BIN. *)
Theorem six_digit_amex_bin_is_cut fuel bin clock :
  all_ascii_digits bin = true ->
  len bin = 6 ->
  detect_card_type bin = Ok ("amex"%string, 15) ->
  clock_reading_ok (clock 0%nat) ->
  (forall tape, exists c w',
     generate_card (S fuel) bin (mkworld tape clock) = Ok (c, w')
     /\ startswith (firstn 4 bin) (number c) = true)
  /\ (exists tape c w',
       generate_card (S fuel) bin (mkworld tape clock) = Ok (c, w')
       /\ startswith (firstn 4 bin) (number c) = true
       /\ startswith bin (number c) = false).
Proof.
  intros H L T C.
  destruct bin as [|b1 [|b2 [|b3 [|b4 [|b5 [|b6 [|b7 r]]]]]]];
    try (unfold len in L; cbn [List.length] in L; lia).
  split.
  { intros tape.
    destruct (generate_card_shape fuel [b1; b2; b3; b4; b5; b6]
                (mkworld tape clock) "amex"%string 15 H T
                (or_introl eq_refl) C)
      as (c & w3 & G & (_ & _ & _ & St & _) & _).
    exists c, w3. split; [exact G | exact St]. }
  destruct (all_ascii_digits_middle [b1; b2; b3; b4] b5 [b6] H) as (_ & H5 & _).
  pose proof (digit_code_bounds b5 H5) as B5.
  set (bin := [b1; b2; b3; b4; b5; b6]) in *.
  set (tape := fun _ : nat => code b5 - 48 + 1).
  set (w := mkworld tape clock).
  exists tape. change (mkworld tape clock) with w.
  destruct (generate_card_number_explicit fuel bin 15 w H) as [d G].
  cbn zeta in G.
  change (fst (bin_prefix bin 15)) with [b1; b2; b3; b4] in G.
  change (Z.to_nat (snd (bin_prefix bin 15) - len [b1; b2; b3; b4]))
    with 10%nat in G.
  pose proof (random_part_digits 10 w) as (_ & _ & Kr).
  pose proof (random_part_first 9 w) as F.
  change (rand_tape w 0%nat) with (code b5 - 48 + 1) in F.
  set (v := 0 + (code b5 - 48 + 1) mod 10) in *.
  assert (Bv : 0 <= v <= 9) by (subst v; Z.div_mod_to_equations; lia).
  destruct (py_str_digit_is_digit v Bv) as (c5 & E5 & _ & V5).
  rewrite E5 in F. rewrite F in G.
  assert (N5 : Ascii.eqb b5 c5 = false).
  { apply Ascii.eqb_neq. intros ->. subst v. Z.div_mod_to_equations. lia. }
  unfold generate_card. rewrite T. cbn [bind]. rewrite G. cbn [bind].
  assert (C1 : clock_reading_ok (clock_tape (snd (random_part 10 w)) 0%nat))
    by (rewrite Kr; exact C).
  pose proof (randint_bounds 6 60 (snd (random_part 10 w)) ltac:(lia)) as B.
  destruct (expiry_date_facts _ _ C1 B) as (e & A & _).
  rewrite generate_expiry_date_steps, A. cbn [bind].
  destruct (generate_cvv _ _) as [code3 w3].
  do 2 eexists. split; [reflexivity |]. cbn [number]. split.
  - cbn [firstn bin]. apply startswith_app_assoc.
  - subst bin. cbn [startswith app]. rewrite !Ascii.eqb_refl, N5. reflexivity.
Qed.

Lemma six_digit_amex_bin_is_cut_witness :
  (forall tape, exists c w',
     generate_card 1 (lit "341234") (mkworld tape (fun _ => mkdate 2024 1 31))
     = Ok (c, w')
     /\ startswith (firstn 4 (lit "341234")) (number c) = true)
  /\ (exists tape c w',
       generate_card 1 (lit "341234") (mkworld tape (fun _ => mkdate 2024 1 31))
       = Ok (c, w')
       /\ startswith (firstn 4 (lit "341234")) (number c) = true
       /\ startswith (lit "341234") (number c) = false).
Proof.
  apply (six_digit_amex_bin_is_cut 0 (lit "341234") (fun _ => mkdate 2024 1 31)).
  - reflexivity.
  - reflexivity.
  - reflexivity.
  - split; [reflexivity | cbn; lia].
Defined.

(** ** Batches compose *)

Lemma generate_cards_loop_acc fuel bin iterations :
  forall cards w,
    generate_cards_loop fuel bin iterations cards w
    = ('(more, w') <- generate_cards_loop fuel bin iterations [] w ;;
       Ok (cards ++ more, w')).
Proof.
  induction iterations as [|k IH]; intros cards w.
  - cbn. now rewrite app_nil_r.
  - cbn [generate_cards_loop].
    destruct (generate_card fuel bin w) as [[c w1]| |]; cbn [bind]; try reflexivity.
    rewrite (IH (cards ++ [c])), (IH ([] ++ [c])).
    destruct (generate_cards_loop fuel bin k [] w1) as [[m w2]| |];
      cbn [bind]; try reflexivity.
    now rewrite <- app_assoc.
Qed.

Lemma generate_cards_loop_add fuel bin k1 k2 :
  forall cards w,
    generate_cards_loop fuel bin (k1 + k2) cards w
    = ('(first, w1) <- generate_cards_loop fuel bin k1 cards w ;;
       generate_cards_loop fuel bin k2 first w1).
Proof.
  induction k1 as [|k1 IH]; intros cards w; [reflexivity |].
  cbn [Nat.add generate_cards_loop].
  destruct (generate_card fuel bin w) as [[c w1]| |]; cbn [bind]; try reflexivity.
  apply IH.
Qed.

(** X11: a batch of [q1 + q2] cards is a batch of [q1] followed by a batch
    of [q2] made in the world the first one left, records in that order;
    if either part raises, so does the whole.  This holds for every BIN. *)
Theorem generate_cards_split fuel bin q1 q2 w :
  0 <= q1 -> 0 <= q2 ->
  generate_cards fuel bin (q1 + q2) w
  = ('(first, w1) <- generate_cards fuel bin q1 w ;;
     '(second, w2) <- generate_cards fuel bin q2 w1 ;;
     Ok (first ++ second, w2)).
Proof.
  intros H1 H2. unfold generate_cards.
  rewrite Z2Nat.inj_add by assumption.
  rewrite generate_cards_loop_add.
  destruct (generate_cards_loop fuel bin (Z.to_nat q1) [] w) as [[first w1]| |];
    cbn [bind]; try reflexivity.
  apply generate_cards_loop_acc.
Qed.

Lemma generate_cards_split_witness :
  generate_cards 1 (lit "4111") (2 + 1) (constant_world 8 (mkdate 2024 1 31))
  = ('(first, w1) <- generate_cards 1 (lit "4111") 2
                       (constant_world 8 (mkdate 2024 1 31)) ;;
     '(second, w2) <- generate_cards 1 (lit "4111") 1 w1 ;;
     Ok (first ++ second, w2)).
Proof. apply (generate_cards_split 1 (lit "4111") 2 1); lia. Defined.

(** ** What [validate_bin] lets through *)

Lemma isdigit_char_normalised c :
  isdigit_char c = true ->
  (is_ascii_digit c = true /\ int_normalise c = c)
  \/ (is_ascii_digit c = false /\ int_normalise c = "?"%char).
Proof. each_char c; intros _; (left; split; reflexivity) || (right; split; reflexivity). Qed.

Lemma int_digits_stops_at_mark t :
  Forall (fun c => is_ascii_digit c = true \/ c = "?"%char) t ->
  Exists (fun c => c = "?"%char) t ->
  forall acc, exists v rest, int_digits acc t = Some (v, "?"%char :: rest).
Proof.
  induction 1 as [|c r Hc Hr IH]; intros E acc; [inversion E |].
  destruct Hc as [Hc | ->].
  - destruct (digit_char_facts c Hc) as (_ & _ & _ & _ & D).
    cbn [int_digits]. rewrite D. apply IH.
    inversion E as [? ? Q | ? ? Q]; subst; [discriminate | exact Q].
  - exists acc, r. reflexivity.
Qed.

(** [int] raises on a string of [isdigit] characters one of which is not an
    ASCII digit. *)
Lemma py_int_superscript s :
  forallb isdigit_char s = true -> all_ascii_digits s = false ->
  py_int s = Raise ValueError.
Proof.
  intros D N.
  assert (F : Forall (fun c => is_ascii_digit c = true \/ c = "?"%char)
                (map int_normalise s)).
  { apply Forall_map, Forall_forall. intros c Hc.
    rewrite forallb_forall in D.
    destruct (isdigit_char_normalised c (D c Hc)) as [[A ->] | [_ ->]]; auto. }
  assert (E : Exists (fun c => c = "?"%char) (map int_normalise s)).
  { clear F. induction s as [|c s IH]; [discriminate |].
    cbn [forallb] in D. apply andb_true_iff in D as [Dc Ds].
    cbn [all_ascii_digits forallb] in N. fold (all_ascii_digits s) in N.
    cbn [map].
    destruct (isdigit_char_normalised c Dc) as [[A _] | [_ ->]].
    - rewrite A in N. right. now apply IH.
    - now left. }
  unfold py_int. destruct (map int_normalise s) as [|c r]; [inversion E |].
  inversion F as [|? ? Hc Hr]; subst.
  destruct Hc as [Hc | ->].
  - destruct (digit_char_facts c Hc) as (_ & SP & MI & PL & Dv).
    cbn [skip_space]. rewrite SP, MI, PL. cbn [int_unsigned]. rewrite Dv.
    assert (Er : Exists (fun c => c = "?"%char) r).
    { inversion E as [? ? Q | ? ? Q]; subst; [discriminate | exact Q]. }
    destruct (int_digits_stops_at_mark r Hr Er (code c - 48)) as (v & rest & ->).
    reflexivity.
  - reflexivity.
Qed.

Lemma superscript_not_ascii_digit s :
  existsb is_superscript_digit s = true -> all_ascii_digits s = false.
Proof.
  unfold all_ascii_digits. induction s as [|c r IH]; cbn [existsb forallb].
  - discriminate.
  - intros E. apply Bool.orb_true_iff in E as [E | E].
    + replace (is_ascii_digit c) with false; [reflexivity |].
      revert E. each_char c.
    + rewrite (IH E). apply Bool.andb_false_r.
Qed.

(** X12: a BIN that [validate_bin] accepts is classified when it is made of
    ASCII digits; when one of its characters is a superscript digit
    (U+00B2, U+00B3 or U+00B9, which [isdigit] accepts),
    [detect_card_type] raises [ValueError] and so does every batch of at
    least one card. *)
Theorem validated_bin_classified_or_raises bin :
  validate_bin bin = true ->
  (all_ascii_digits bin = true ->
   exists card_type card_length,
     detect_card_type bin = Ok (card_type, card_length)
     /\ (card_length = 15 \/ card_length = 16))
  /\ (existsb is_superscript_digit bin = true ->
      detect_card_type bin = Raise ValueError
      /\ forall fuel quantity w,
           1 <= quantity ->
           generate_cards fuel bin quantity w = Raise ValueError).
Proof.
  intros V. apply validate_bin_iff in V as [D L]. split.
  - intros A. apply detect_card_type_returns; [| exact A].
    intros ->. cbn in L. lia.
  - intros E. pose proof (superscript_not_ascii_digit bin E) as A.
    assert (T : detect_card_type bin = Raise ValueError).
    { unfold detect_card_type. rewrite py_int_superscript; [reflexivity | | exact A].
      destruct bin; [discriminate | exact D]. }
    split; [exact T |]. intros fuel quantity w Q. unfold generate_cards.
    destruct (Z.to_nat quantity) as [|k] eqn:K; [lia |].
    cbn [generate_cards_loop]. unfold generate_card. rewrite T. reflexivity.
Qed.

Lemma validated_bin_classified_or_raises_witness :
  (all_ascii_digits ["178"; "3"; "4"]%char = true ->
   exists card_type card_length,
     detect_card_type ["178"; "3"; "4"]%char = Ok (card_type, card_length)
     /\ (card_length = 15 \/ card_length = 16))
  /\ (existsb is_superscript_digit ["178"; "3"; "4"]%char = true ->
      detect_card_type ["178"; "3"; "4"]%char = Raise ValueError
      /\ forall fuel quantity w,
           1 <= quantity ->
           generate_cards fuel ["178"; "3"; "4"]%char quantity w
           = Raise ValueError).
Proof.
  apply (validated_bin_classified_or_raises ["178"; "3"; "4"]%char). reflexivity.
Defined.

(** * Properties of [bot.py] and [config.py] *)

(** ** [extract_bin] *)

Lemma leading_digits_spec limit :
  forall s,
    all_ascii_digits (leading_digits limit s) = true
    /\ (List.length (leading_digits limit s) <= limit)%nat
    /\ exists rest, s = leading_digits limit s ++ rest.
Proof.
  induction limit as [|k IH]; intros s.
  - repeat split; [cbn; lia | now exists s].
  - destruct s as [|c r]; [repeat split; [cbn; lia | now exists []] |].
    cbn [leading_digits]. destruct (is_ascii_digit c) eqn:Hc.
    + destruct (IH r) as (D & L & rest & E).
      cbn [all_ascii_digits forallb List.length].
      fold (all_ascii_digits (leading_digits k r)). rewrite Hc, D.
      repeat split; [lia |]. exists rest. cbn [app]. now rewrite <- E.
    + repeat split; [cbn; lia | now exists (c :: r)].
Qed.

Lemma search_digits_spec text :
  forall m, search_digits text = Some m ->
    all_ascii_digits m = true
    /\ (3 <= List.length m <= 6)%nat
    /\ exists pre post, text = pre ++ m ++ post.
Proof.
  induction text as [|c r IH]; intros m H; [discriminate |].
  cbn [search_digits] in H.
  destruct (Nat.leb_spec 3 (List.length (leading_digits 6 (c :: r)))) as [L|L].
  - injection H as <-.
    destruct (leading_digits_spec 6 (c :: r)) as (D & L6 & rest & E).
    repeat split; try assumption. exists [], rest. exact E.
  - destruct (IH m H) as (D & L3 & pre & post & E).
    repeat split; try assumption; try lia. exists (c :: pre), post.
    cbn [app]. now rewrite <- E.
Qed.

Lemma lstrip_suffix s : exists pre, s = pre ++ lstrip s.
Proof.
  induction s as [|c r [pre E]]; [now exists [] |].
  cbn [lstrip]. destruct (isspace_char c).
  - exists (c :: pre). cbn [app]. now rewrite <- E.
  - now exists [].
Qed.

Lemma strip_infix s : exists pre post, s = pre ++ strip s ++ post.
Proof.
  unfold strip. destruct (lstrip_suffix s) as [pre E].
  destruct (lstrip_suffix (rev (lstrip s))) as [q F].
  exists pre, (rev q). rewrite E at 1. f_equal.
  rewrite <- (rev_involutive (lstrip s)), F at 1. now rewrite rev_app_distr.
Qed.

Lemma sub_bin_prefix_suffix text : exists pre, text = pre ++ sub_bin_prefix text.
Proof.
  unfold sub_bin_prefix.
  destruct text as [|b [|i [|n rest]]]; try (now exists []).
  destruct (_ && _); [| now exists []].
  destruct rest as [|c r].
  - exists [b; i; n]. reflexivity.
  - destruct (Ascii.eqb_spec c ":") as [-> | _].
    + destruct (lstrip_suffix r) as [q E].
      exists ([b; i; n; ":"%char] ++ q). rewrite <- app_assoc, <- E. reflexivity.
    + destruct (lstrip_suffix (c :: r)) as [q E].
      exists ([b; i; n] ++ q). rewrite <- app_assoc, <- E. reflexivity.
Qed.

(** What [extract_bin] returns, when it is not the empty string. *)
Lemma extract_bin_found message_text :
  extract_bin message_text = []
  \/ (all_ascii_digits (extract_bin message_text) = true
      /\ 3 <= len (extract_bin message_text) <= 6
      /\ exists pre post,
           message_text = pre ++ extract_bin message_text ++ post).
Proof.
  unfold extract_bin.
  destruct (search_digits (sub_bin_prefix (strip message_text))) as [m|] eqn:S;
    [right | now left].
  destruct (search_digits_spec _ m S) as (D & L & pre & post & E).
  repeat split; try assumption; try (unfold len; lia).
  destruct (sub_bin_prefix_suffix (strip message_text)) as [q Q].
  destruct (strip_infix message_text) as (a & b & P).
  exists (a ++ q ++ pre), (post ++ b).
  rewrite P at 1. rewrite Q, E. now rewrite <- !app_assoc.
Qed.

(** X13: [extract_bin] returns the empty string or a string of 3 to 6
    characters that [isdigit] accepts and that stand next to each other in
    the message; when the message is made of ASCII characters they are
    ASCII digits.  It never returns fewer than 3 or more than 6 characters,
    or characters that are not in the message. *)
Theorem extract_bin_shape message_text :
  extract_bin message_text = []
  \/ (forallb isdigit_char (extract_bin message_text) = true
      /\ 3 <= len (extract_bin message_text) <= 6
      /\ (exists pre post,
            message_text = pre ++ extract_bin message_text ++ post)
      /\ (ascii_string message_text ->
          all_ascii_digits (extract_bin message_text) = true)).
Proof.
  destruct (extract_bin_found message_text) as [E | (D & L & P)];
    [left; exact E | right].
  split; [| split; [exact L | split; [exact P | intros _; exact D]]].
  apply forallb_forall. intros c Hc. unfold isdigit_char.
  unfold all_ascii_digits in D. rewrite forallb_forall in D.
  rewrite (D c Hc). reflexivity.
Qed.

Lemma digit_char_not_special c :
  is_ascii_digit c = true ->
  isspace_char c = false
  /\ (Ascii.eqb c "b" || Ascii.eqb c "B") = false.
Proof. each_char c; intros _; split; reflexivity. Qed.

Lemma all_ascii_digits_rev s : all_ascii_digits (rev s) = all_ascii_digits s.
Proof.
  induction s as [|c s IH]; [reflexivity |].
  cbn [rev]. rewrite all_ascii_digits_app, IH. cbn [all_ascii_digits forallb].
  fold (all_ascii_digits s).
  destruct (all_ascii_digits s), (is_ascii_digit c); reflexivity.
Qed.

Lemma lstrip_digit_head s t :
  s <> [] -> all_ascii_digits s = true -> lstrip (s ++ t) = s ++ t.
Proof.
  intros NE H. destruct s as [|c r]; [congruence |].
  apply andb_true_iff in H as [Hc _].
  destruct (digit_char_not_special c Hc) as [Sp _].
  cbn [app lstrip]. now rewrite Sp.
Qed.

(** [strip] leaves a string that starts with a character that is not white
    space and ends with digits. *)
Lemma strip_kept c r s :
  isspace_char c = false -> s <> [] -> all_ascii_digits s = true ->
  strip (c :: r ++ s) = c :: r ++ s.
Proof.
  intros Hc NE H. unfold strip. cbn [lstrip]. rewrite Hc.
  change (c :: r ++ s) with ((c :: r) ++ s). rewrite rev_app_distr.
  rewrite lstrip_digit_head.
  - now rewrite <- rev_app_distr, rev_involutive.
  - intros E. apply NE. apply (f_equal (@rev ascii)) in E.
    now rewrite rev_involutive in E.
  - now rewrite all_ascii_digits_rev.
Qed.

Lemma lstrip_digit_string s :
  s <> [] -> all_ascii_digits s = true -> lstrip s = s.
Proof.
  intros NE H. pose proof (lstrip_digit_head s [] NE H) as E.
  now rewrite app_nil_r in E.
Qed.

Lemma strip_digit_string s :
  s <> [] -> all_ascii_digits s = true -> strip s = s.
Proof.
  intros NE H. unfold strip. rewrite (lstrip_digit_string s NE H).
  rewrite lstrip_digit_string.
  - apply rev_involutive.
  - intros E. apply NE. apply (f_equal (@rev ascii)) in E.
    now rewrite rev_involutive in E.
  - now rewrite all_ascii_digits_rev.
Qed.

Lemma leading_digits_digit_string limit :
  forall s, all_ascii_digits s = true -> leading_digits limit s = firstn limit s.
Proof.
  induction limit as [|k IH]; intros s H; [now destruct s |].
  destruct s as [|c r]; [reflexivity |].
  apply andb_true_iff in H as [Hc Hr].
  cbn [leading_digits firstn]. now rewrite Hc, (IH r Hr).
Qed.

Lemma search_digits_digit_string s :
  all_ascii_digits s = true -> 3 <= len s ->
  search_digits s = Some (firstn 6 s).
Proof.
  intros H L. destruct s as [|c r]; [cbn in L; lia |].
  cbn [search_digits]. rewrite (leading_digits_digit_string 6 _ H).
  destruct (Nat.leb_spec 3 (List.length (firstn 6 (c :: r)))) as [_|K];
    [reflexivity |].
  rewrite length_firstn in K. unfold len in L. lia.
Qed.

(** X14: on a string of at least 3 ASCII digits, bare or after "BIN: " or
    "bin ", [extract_bin] returns its first 6 digits: a BIN of 3 to 6
    digits comes back as it is, and of a longer number, a whole card number
    for one, the first 6 digits are taken as the BIN. *)
Theorem extract_bin_digit_string s :
  all_ascii_digits s = true ->
  3 <= len s ->
  extract_bin s = firstn 6 s
  /\ extract_bin (lit "BIN: " ++ s) = firstn 6 s
  /\ extract_bin (lit "bin " ++ s) = firstn 6 s.
Proof.
  intros H L.
  assert (NE : s <> []) by (intros ->; cbn in L; lia).
  pose proof (search_digits_digit_string s H L) as S.
  repeat split; unfold extract_bin.
  - rewrite (strip_digit_string s NE H).
    assert (P : sub_bin_prefix s = s).
    { destruct s as [|c [|c2 [|c3 r]]]; try reflexivity.
      apply andb_true_iff in H as [Hc _].
      destruct (digit_char_not_special c Hc) as [_ Nb].
      unfold sub_bin_prefix. now rewrite Nb. }
    now rewrite P, S.
  - change (lit "BIN: " ++ s) with ("B"%char :: lit "IN: " ++ s).
    rewrite (strip_kept "B" (lit "IN: ") s eq_refl NE H).
    change (sub_bin_prefix ("B"%char :: lit "IN: " ++ s)) with (lstrip (" "%char :: s)).
    change (lstrip (" "%char :: s)) with (lstrip s).
    now rewrite (lstrip_digit_string s NE H), S.
  - change (lit "bin " ++ s) with ("b"%char :: lit "in " ++ s).
    rewrite (strip_kept "b" (lit "in ") s eq_refl NE H).
    change (sub_bin_prefix ("b"%char :: lit "in " ++ s)) with (lstrip (" "%char :: s)).
    change (lstrip (" "%char :: s)) with (lstrip s).
    now rewrite (lstrip_digit_string s NE H), S.
Qed.

Lemma extract_bin_digit_string_witness :
  extract_bin (lit "4111111111111111") = firstn 6 (lit "4111111111111111")
  /\ extract_bin (lit "BIN: " ++ lit "4111111111111111")
     = firstn 6 (lit "4111111111111111")
  /\ extract_bin (lit "bin " ++ lit "4111111111111111")
     = firstn 6 (lit "4111111111111111").
Proof.
  apply (extract_bin_digit_string (lit "4111111111111111")); [reflexivity |].
  cbn. lia.
Defined.

(** ** The quantity check, and the bot's use of the generator *)

Lemma quantity_numerals n :
  -9999 <= n <= 9999 -> quantity_numeral_ok n = true.
Proof.
  intros B. apply (all_from_correct quantity_numeral_ok 19999 (-9999)); [| lia].
  vm_cast_no_check (eq_refl true).
Qed.

(** X15: the quantity check accepts a text exactly when [int] of the
    stripped text is an integer of 1..1000, and then with that integer; the
    decimal numeral of every [n] of -9999..9999 is accepted as [n] when
    [1 <= n <= 1000], answered "not positive" when [n <= 0] and "over the
    maximum" when [n > 1000]. *)
Theorem check_quantity_accepts message_text :
  (forall q, check_quantity message_text = QuantityAccepted q <->
             py_int (strip message_text) = Ok q
             /\ 1 <= q <= MAX_CARDS_PER_REQUEST)
  /\ forall n, -9999 <= n <= 9999 ->
       check_quantity (py_str n)
       = if n <=? 0 then NotPositive
         else if MAX_CARDS_PER_REQUEST <? n then OverMaximum n
         else QuantityAccepted n.
Proof.
  split.
  - intros q. unfold check_quantity.
    destruct (py_int (strip message_text)) as [v| |].
    + destruct (Z.leb_spec v 0); [split; [discriminate | intros [E ?]; injection E; lia] |].
      destruct (Z.ltb_spec MAX_CARDS_PER_REQUEST v).
      * split; [discriminate | intros [E ?]; injection E; lia].
      * split; [intros E; injection E as <-; split; [reflexivity | lia] |].
        intros [E _]. now injection E as <-.
    + split; [discriminate | intros [E _]; discriminate].
    + split; [discriminate | intros [E _]; discriminate].
  - intros n B. pose proof (quantity_numerals n B) as K.
    unfold quantity_numeral_ok in K.
    destruct (check_quantity (py_str n)) as [| |q|q].
    + discriminate.
    + apply Z.leb_le in K. destruct (Z.leb_spec n 0); [reflexivity | lia].
    + apply andb_true_iff in K as [E M]. apply Z.eqb_eq in E as ->.
      rewrite M. apply Z.ltb_lt in M. unfold MAX_CARDS_PER_REQUEST in M.
      destruct (Z.leb_spec n 0); [lia | reflexivity].
    + apply andb_true_iff in K as [K M]. apply andb_true_iff in K as [E P].
      apply Z.eqb_eq in E as ->. apply Z.ltb_lt in P. apply Z.leb_le in M.
      destruct (Z.leb_spec n 0); [lia |].
      destruct (Z.ltb_spec MAX_CARDS_PER_REQUEST n); [lia | reflexivity].
Qed.

Lemma len_concat_card_lines cards bin card_length :
  card_length = 15 \/ card_length = 16 ->
  Forall (record_shape bin card_length) cards ->
  len (cards_file cards) = 29 * Z.of_nat (List.length cards).
Proof.
  intros L F. unfold cards_file.
  induction F as [|c cards Sh _ IH]; [reflexivity |].
  cbn [map List.concat List.length]. rewrite len_app, IH.
  destruct Sh as (_ & Ln & _ & _ & _ & Lm & _ & Ly & _ & Lc).
  assert (Cons : forall (a : ascii) (s : str), len (a :: s) = 1 + len s).
  { intros a s. unfold len. cbn [List.length]. lia. }
  unfold card_line.
  rewrite len_app, Cons, len_app, Cons, len_app, Cons, len_app, Lm, Ly, Lc, Ln.
  change (len ["010"%char]) with 1.
  destruct L as [-> | ->]; cbn [Z.eqb Pos.eqb]; lia.
Qed.

(** X16: the bot's use of the generator.  When [validate_bin] accepts the
    BIN that [extract_bin] takes from a message and the quantity check
    accepts a quantity, [generate_cards] on that BIN and quantity returns
    exactly that many records, between 1 and 1000, and the file written
    from them has 29 characters for each record: every line is as wide,
    whatever the scheme. *)
Theorem bot_generates_requested_batch fuel message_text quantity_text quantity w :
  validate_bin (extract_bin message_text) = true ->
  check_quantity quantity_text = QuantityAccepted quantity ->
  (forall i, clock_reading_ok (clock_tape w i)) ->
  exists cards w',
    generate_cards (S fuel) (extract_bin message_text) quantity w = Ok (cards, w')
    /\ 1 <= quantity <= MAX_CARDS_PER_REQUEST
    /\ Z.of_nat (List.length cards) = quantity
    /\ len (cards_file cards) = 29 * quantity.
Proof.
  intros V Q C.
  assert (B : 1 <= quantity <= MAX_CARDS_PER_REQUEST).
  { unfold check_quantity in Q.
    destruct (py_int (strip quantity_text)) as [v| |]; try discriminate.
    destruct (Z.leb_spec v 0); [discriminate |].
    destruct (Z.ltb_spec MAX_CARDS_PER_REQUEST v); [discriminate |].
    injection Q as <-. lia. }
  apply validate_bin_iff in V as [D L].
  destruct (extract_bin_found message_text) as [E | (H & _ & _)].
  { rewrite E in L. cbn in L. lia. }
  set (bin := extract_bin message_text) in *.
  assert (NE : bin <> []) by (intros E; rewrite E in L; cbn in L; lia).
  destruct (detect_card_type_returns bin NE H) as (t & l & T & Tl).
  destruct (generate_cards_loop_all (S fuel) bin (record_shape bin l)
              (fun w0 C0 => generate_card_shape fuel bin w0 t l H T Tl C0)
              (Z.to_nat quantity) [] w C) as (cards & w' & R & Le & Fa).
  exists cards, w'. unfold generate_cards. split; [exact R |].
  split; [exact B |]. split; [lia |].
  rewrite (len_concat_card_lines cards bin l Tl Fa). lia.
Qed.

Lemma bot_generates_requested_batch_witness :
  exists cards w',
    generate_cards 1 (extract_bin (lit "BIN: 4111")) 3
      (constant_world 8 (mkdate 2024 1 31)) = Ok (cards, w')
    /\ 1 <= 3 <= MAX_CARDS_PER_REQUEST
    /\ Z.of_nat (List.length cards) = 3
    /\ len (cards_file cards) = 29 * 3.
Proof.
  apply (bot_generates_requested_batch 0 (lit "BIN: 4111") (lit " 3 ") 3
           (constant_world 8 (mkdate 2024 1 31))).
  - reflexivity.
  - reflexivity.
  - intros i. split; [reflexivity | cbn; lia].
Defined.

(** ** The line of a record *)

Lemma digits_without c s :
  is_ascii_digit c = false -> all_ascii_digits s = true -> ~ In c s.
Proof.
  intros Hc H I. unfold all_ascii_digits in H. rewrite forallb_forall in H.
  rewrite (H c I) in Hc. discriminate.
Qed.

Lemma split_at_separator (sep : ascii) a :
  forall b x y,
    ~ In sep a -> ~ In sep b ->
    a ++ sep :: x = b ++ sep :: y -> a = b /\ x = y.
Proof.
  induction a as [|c a IH]; intros b x y Na Nb E.
  - destruct b as [|d b]; cbn [app] in E.
    + injection E as <-. now split.
    + injection E as <- _. exfalso. apply Nb. now left.
  - destruct b as [|d b]; cbn [app] in E.
    + injection E as -> _. exfalso. apply Na. now left.
    + injection E as <- E.
      destruct (IH b x y) as [-> ->]; try assumption.
      * intros I. apply Na. now right.
      * intros I. apply Nb. now right.
      * now split.
Qed.

(** X17: the line format loses nothing: two records whose four fields are
    digit strings and whose lines are equal are the same record, so a line
    can be read back into its fields without ambiguity. *)
Theorem card_line_injective c1 c2 :
  digit_fields c1 -> digit_fields c2 ->
  card_line c1 = card_line c2 -> c1 = c2.
Proof.
  intros (N1 & M1 & Y1 & V1) (N2 & M2 & Y2 & V2) E.
  destruct c1 as [n1 m1 y1 v1], c2 as [n2 m2 y2 v2].
  unfold card_line in E. cbn [number card_month card_year cvv] in *.
  assert (Bar : is_ascii_digit "|" = false) by reflexivity.
  apply split_at_separator in E as [-> E]; try (now apply digits_without).
  apply split_at_separator in E as [-> E]; try (now apply digits_without).
  apply split_at_separator in E as [-> E]; try (now apply digits_without).
  apply app_inj_tail in E as [-> _]. reflexivity.
Qed.

Lemma card_line_injective_witness :
  mkcard (lit "4111111111111111") (lit "08") (lit "2027") (lit "123")
  = mkcard (lit "4111111111111111") (lit "08") (lit "2027") (lit "123").
Proof.
  apply (card_line_injective
           (mkcard (lit "4111111111111111") (lit "08") (lit "2027") (lit "123"))
           (mkcard (lit "4111111111111111") (lit "08") (lit "2027") (lit "123")));
    [repeat split | repeat split | reflexivity].
Defined.

(** ** The token of [config.py] *)















(** * Outcomes of the classifier and of the validator *)

Lemma py_int_outcomes s :
  (exists n, py_int s = Ok n) \/ py_int s = Raise ValueError.
Proof.
  unfold py_int.
  destruct (match skip_space (map int_normalise s) with
            | [] => _ | _ :: _ => _ end) as [negative digits].
  destruct (int_unsigned digits); [left; eauto | now right].
Qed.

(** X19: the outcomes of [detect_card_type] on an arbitrary string: it
    returns "amex" with 15, or "visa", "mastercard" or "unknown" with 16,
    or it raises [ValueError], which it does exactly when [int(bin)] does.
    It never raises [IndexError]: [bin[0]] is reached only after [int(bin)]
    returned, which it does not on the empty string. *)
Theorem detect_card_type_outcomes bin :
  match detect_card_type bin with
  | Ok (card_type, card_length) =>
      (exists n, py_int bin = Ok n)
      /\ ((card_type = "amex"%string /\ card_length = 15)
          \/ (In card_type ["visa"; "mastercard"; "unknown"]%string
              /\ card_length = 16))
  | Raise e => e = ValueError /\ py_int bin = Raise ValueError
  | OutOfFuel => False
  end.
Proof.
  unfold detect_card_type.
  destruct (py_int_outcomes bin) as [[n E] | E]; rewrite E; cbn [bind];
    [| now split].
  destruct bin as [|c r]; [discriminate |]. cbn [index0 bind].
  repeat match goal with
         | |- context [if ?b then _ else _] => destruct b
         end;
    (split; [now exists n |]);
    ((left; split; reflexivity) || (right; split; [cbn; tauto | reflexivity])).
Qed.

(** X20: on a string of ASCII characters [validate_bin] answers true
    exactly when every character is a decimal digit and the length is 3, 4
    or 6; on the empty string, on letters, signs or blanks, and on every
    other length it answers false. *)
Theorem validate_bin_on_ascii s :
  Forall (fun c => code c < 128) s ->
  validate_bin s = true
  <-> all_ascii_digits s = true /\ (len s = 3 \/ len s = 4 \/ len s = 6).
Proof.
  intros A. rewrite validate_bin_iff.
  assert (E : forallb isdigit_char s = all_ascii_digits s).
  { induction A as [|c s Hc _ IH]; [reflexivity |].
    cbn [forallb all_ascii_digits]. fold (all_ascii_digits s). rewrite IH.
    f_equal. unfold isdigit_char.
    destruct (Z.eqb_spec (code c) 178), (Z.eqb_spec (code c) 179),
      (Z.eqb_spec (code c) 185); try lia.
    now rewrite !orb_false_r. }
  destruct s as [|c s]; [cbn; intuition lia |].
  unfold isdigit. rewrite E. reflexivity.
Qed.

Lemma validate_bin_on_ascii_witness :
  validate_bin (lit "12a4") = true
  <-> all_ascii_digits (lit "12a4") = true
      /\ (len (lit "12a4") = 3 \/ len (lit "12a4") = 4 \/ len (lit "12a4") = 6).
Proof.
  apply (validate_bin_on_ascii (lit "12a4")). repeat constructor.
Defined.

(** * The validator after [extract_bin] *)

Lemma isdigit_digit_string s :
  s <> [] -> all_ascii_digits s = true -> isdigit s = true.
Proof.
  intros NE H. destruct s as [|c r]; [congruence |]. unfold isdigit.
  apply forallb_forall. intros x I.
  unfold all_ascii_digits in H. rewrite forallb_forall in H.
  unfold isdigit_char. now rewrite (H x I).
Qed.

(** X21: lines 68-83 of [handle_bin_message]: when [extract_bin] finds a BIN
    in a message, [validate_bin] rejects it exactly when it has 5 digits.
    The reply for an invalid BIN is thus given for runs of 5 digits alone;
    runs of 3, 4 and 6 digits, and the first 6 digits of every longer run,
    are accepted. *)
Theorem validate_bin_after_extract_bin message_text :
  extract_bin message_text <> [] ->
  (validate_bin (extract_bin message_text) = false
   <-> len (extract_bin message_text) = 5)
  /\ (validate_bin (extract_bin message_text) = true
      <-> len (extract_bin message_text) = 3
          \/ len (extract_bin message_text) = 4
          \/ len (extract_bin message_text) = 6).
Proof.
  intros NE.
  destruct (extract_bin_found message_text) as [E | (H & L & _)]; [congruence |].
  pose proof (isdigit_digit_string _ NE H) as D.
  pose proof (validate_bin_iff (extract_bin message_text)) as V.
  rewrite D in V.
  destruct (validate_bin (extract_bin message_text)); split; split;
    try discriminate; try reflexivity; intros K.
  - destruct V as [V _]. destruct (V eq_refl) as [_ Q]. lia.
  - now apply V.
  - destruct (Z.eq_dec (len (extract_bin message_text)) 5) as [|N5];
      [assumption |].
    assert (Q : true = true /\
                (len (extract_bin message_text) = 3
                 \/ len (extract_bin message_text) = 4
                 \/ len (extract_bin message_text) = 6)) by (split; [reflexivity | lia]).
    apply V in Q. discriminate.
  - assert (Q : true = true /\
                (len (extract_bin message_text) = 3
                 \/ len (extract_bin message_text) = 4
                 \/ len (extract_bin message_text) = 6)) by (split; [reflexivity | exact K]).
    apply V in Q. discriminate.
Qed.

Lemma validate_bin_after_extract_bin_witness :
  (validate_bin (extract_bin (lit "my bin is 12345 ok")) = false
   <-> len (extract_bin (lit "my bin is 12345 ok")) = 5)
  /\ (validate_bin (extract_bin (lit "my bin is 12345 ok")) = true
      <-> len (extract_bin (lit "my bin is 12345 ok")) = 3
          \/ len (extract_bin (lit "my bin is 12345 ok")) = 4
          \/ len (extract_bin (lit "my bin is 12345 ok")) = 6).
Proof.
  apply (validate_bin_after_extract_bin (lit "my bin is 12345 ok")). discriminate.
Defined.
